(** * Hall-Booking-API: the booking ledger of [server.js]

    A shallow embedding of the Express handlers of [src/server.js] over an
    in-memory model of the two MongoDB collections they use, and the
    properties of the conflict check, the admission of bookings and the
    three reporting joins. *)

From Stdlib Require Import ZArith NArith Bool Ascii.
From stdpp Require Import gmap strings list fin_maps.

Local Open Scope string_scope.
Local Open Scope list_scope.

(** ** Values and documents *)

(** The values a field of a stored document holds: the scalars a JSON
    request body carries, and the ObjectId the driver generates for
    [_id].  Numbers are the integers; nested arrays and objects are not
    modelled. *)
Inductive value : Type :=
  | VNull
  | VBool (b : bool)
  | VNum (n : Z)
  | VStr (s : string)
  | VOid (n : N).

#[global] Instance value_eq_dec : EqDecision value.
Proof. solve_decision. Defined.

(** A document is a JS object: a finite map from field names to values.
    [d !! f = None] is the JS [undefined] of a field that is not there. *)
Abbreviation doc := (gmap string value).

(** What BSON serialisation makes of a JS value in a query: [undefined]
    is written as [null] (the driver's default, [ignoreUndefined: false]). *)
Definition bson (o : option value) : value := default VNull o.

(** How the query matcher reads a field: a missing field compares like
    [null]. *)
Definition fieldOf (d : doc) (f : string) : value := bson (d !! f).

(** ** Comparison of values in a query *)

Module Cmp.

(** Lexicographic order on strings by character code (the binary
    comparison MongoDB uses without a collation). *)
Fixpoint str_leb (a b : string) : bool :=
  match a, b with
  | EmptyString, _ => true
  | String _ _, EmptyString => false
  | String x a', String y b' =>
      let nx := Ascii.N_of_ascii x in
      let ny := Ascii.N_of_ascii y in
      if (nx <? ny)%N then true
      else if (ny <? nx)%N then false
      else str_leb a' b'
  end.

(** [lte a b]: [a <= b] as [$lte]/[$gte] see it.  Values of different
    BSON types never compare (type bracketing). *)
Definition lte (a b : value) : bool :=
  match a, b with
  | VNull, VNull => true
  | VBool x, VBool y => implb x y
  | VNum x, VNum y => (x <=? y)%Z
  | VStr x, VStr y => str_leb x y
  | VOid x, VOid y => (x <=? y)%N
  | _, _ => false
  end.

(** Two values of one BSON type, the only ones [lte] relates. *)
Definition sameType (a b : value) : bool :=
  match a, b with
  | VNull, VNull | VBool _, VBool _ | VNum _, VNum _
  | VStr _, VStr _ | VOid _, VOid _ => true
  | _, _ => false
  end.

End Cmp.

(** ** Query filters *)

(** The fragment of the MongoDB query language the handlers use:
    [{f: v}], [{f: {$lte: v}}], [{f: {$gte: v}}], the implicit
    conjunction of the keys of one filter object, and [$or]. *)
#[warnings="-register-all"]
Inductive query : Type :=
  | FEq (f : string) (v : value)
  | FLte (f : string) (v : value)
  | FGte (f : string) (v : value)
  | FAnd (fs : list query)
  | FOr (fs : list query).

Fixpoint matches (q : query) (d : doc) {struct q} : bool :=
  match q with
  | FEq f v => bool_decide (fieldOf d f = v)
  | FLte f v => Cmp.lte (fieldOf d f) v
  | FGte f v => Cmp.lte v (fieldOf d f)
  | FAnd fs => forallb (fun q' => matches q' d) fs
  | FOr fs => existsb (fun q' => matches q' d) fs
  end.

(** [find(q).toArray()]: the matching documents, in store order. *)
Definition find_docs (q : query) (c : list doc) : list doc :=
  List.filter (matches q) c.

(** [findOne(q)]: the first matching document, or [null]. *)
Definition findOne_doc (q : query) (c : list doc) : option doc :=
  List.find (matches q) c.

(** ** Inserting *)

(** The [_id] a document brings along: the driver keeps it unless it is
    [undefined] or [null]. *)
Definition suppliedId (d : doc) : option value :=
  match d !! "_id" with
  | Some VNull | None => None
  | Some v => Some v
  end.

(** [insertOne(d)] on a collection [c], with [oid] the next ObjectId of
    the driver.  A document without [_id] gets a generated one; a
    document with an [_id] already in the collection is refused by the
    unique index on [_id] (the promise rejects), shown as [None].  The
    result is the new collection and whether an ObjectId was used up. *)
Definition insertOne_doc (oid : N) (d : doc) (c : list doc)
  : option (list doc * bool) :=
  match suppliedId d with
  | None => Some (c ++ [<["_id" := VOid oid]> d], true)
  | Some i =>
      if existsb (fun x => bool_decide (x !! "_id" = Some i)) c
      then None
      else Some (c ++ [d], false)
  end.

(** ** The server: its two collections and the handler monad *)

(** [roomsCollection] and [bookingsCollection] are the two module-level
    variables of [server.js], each standing for the collection it gives
    access to; they are [undefined] ([None]) until [connectToMongo] has
    set them.  [nextOid] is the driver's ObjectId counter. *)
Record server : Type := Server {
  roomsCollection : option (list doc);
  bookingsCollection : option (list doc);
  nextOid : N
}.

Inductive collection : Type := Rooms | Bookings.

Definition getColl (k : collection) (st : server) : option (list doc) :=
  match k with
  | Rooms => roomsCollection st
  | Bookings => bookingsCollection st
  end.

Definition setColl (k : collection) (c : list doc) (used : bool) (st : server)
  : server :=
  let oid := if used then N.succ (nextOid st) else nextOid st in
  match k with
  | Rooms => Server (Some c) (bookingsCollection st) oid
  | Bookings => Server (roomsCollection st) (Some c) oid
  end.

(** A computation inside a handler's [try] block: it reads and writes the
    server state and either returns a value or throws ([None]). *)
Definition Handler (A : Type) : Type := server -> option A * server.

#[global] Instance handler_ret : MRet Handler :=
  fun A (a : A) st => (Some a, st).

#[global] Instance handler_bind : MBind Handler :=
  fun A B (k : A -> Handler B) (m : Handler A) st =>
    match m st with
    | (Some a, st') => k a st'
    | (None, st') => (None, st')
    end.

(** [await coll.find(q).toArray()]; calling a method of an [undefined]
    collection throws a TypeError. *)
Definition find (k : collection) (q : query) : Handler (list doc) :=
  fun st =>
    match getColl k st with
    | None => (None, st)
    | Some c => (Some (find_docs q c), st)
    end.

(** [await coll.findOne(q)]. *)
Definition findOne (k : collection) (q : query) : Handler (option doc) :=
  fun st =>
    match getColl k st with
    | None => (None, st)
    | Some c => (Some (findOne_doc q c), st)
    end.

(** [await coll.insertOne(d)]. *)
Definition insertOne (k : collection) (d : doc) : Handler unit :=
  fun st =>
    match getColl k st with
    | None => (None, st)
    | Some c =>
        match insertOne_doc (nextOid st) d c with
        | None => (None, st)
        | Some (c', used) => (Some tt, setColl k c' used st)
        end
    end.

(** [for (const x of xs) { ... }] over a loop body that updates [s]. *)
Fixpoint forOf {A S} (xs : list A) (body : A -> S -> Handler S) (s : S)
  : Handler S :=
  match xs with
  | [] => mret s
  | x :: xs' => s' ← body x s; forOf xs' body s'
  end.

(** ** Responses *)

(** A JS object literal in a response: its keys in order, a key whose
    value is [undefined] ([None]) being dropped by [res.json]. *)
Abbreviation jsobj := (list (string * option value)).

Inductive payload : Type :=
  | Text (s : string)
  | Error (msg : string)
  | Rows (rs : list jsobj).

Record response : Type := Response { status : nat; body : payload }.

(** [try { ... } catch (error) { res.status(500).json({ error: msg }) }] *)
Definition tryCatch (h : Handler response) (msg : string)
  : server -> response * server :=
  fun st =>
    match h st with
    | (Some r, st') => (r, st')
    | (None, st') => (Response 500 (Error msg), st')
    end.

(** JS truthiness of what the handlers test: [null] is falsy and a
    document truthy; an array is an object and so truthy, also when it is
    empty. *)
Definition truthy_doc (o : option doc) : bool :=
  match o with Some _ => true | None => false end.

Definition truthy_array (l : list doc) : bool := true.

(** ** The handlers *)

(** [POST /rooms] *)
Definition post_rooms (req_body : doc) : server -> response * server :=
  tryCatch
    (room ← insertOne Rooms req_body;
     mret (Response 201 (Text "Room Created")))
    "Failed to create room".

(** The filter object of the conflict check of [POST /bookings], built
    from the four destructured fields of the request body. *)
Definition conflictQuery (roomId date start end_ : option value) : query :=
  FAnd [ FEq "roomId" (bson roomId);
         FEq "date" (bson date);
         FOr [ FAnd [FLte "start" (bson start); FGte "end" (bson start)];
               FAnd [FLte "start" (bson end_); FGte "end" (bson end_)];
               FAnd [FGte "start" (bson start); FLte "end" (bson end_)] ] ].

Definition conflictQueryOf (req_body : doc) : query :=
  conflictQuery (req_body !! "roomId") (req_body !! "date")
                (req_body !! "start") (req_body !! "end").

Definition slotTaken : response :=
  Response 400 (Error "Room already booked for the given date and time").

Definition roomBooked : response := Response 201 (Text "Room Booked").

(** [POST /bookings], in its two parts: up to the first [await], and
    what follows once [existingBooking] is known. *)
Definition check_slot (req_body : doc) : Handler (option doc) :=
  findOne Bookings (conflictQueryOf req_body).

Definition admit_booking (req_body : doc) (existingBooking : option doc)
  : Handler response :=
  if truthy_doc existingBooking then mret slotTaken
  else booking ← insertOne Bookings req_body; mret roomBooked.

Definition post_bookings (req_body : doc) : server -> response * server :=
  tryCatch
    (existingBooking ← check_slot req_body;
     admit_booking req_body existingBooking)
    "Failed to book room".

(** [GET /rooms/bookings] *)
Definition roomBookingRow (room booking : doc) : jsobj :=
  [ ("roomName", room !! "name");
    ("roomId", room !! "roomId");
    ("bookedStatus", booking !! "status");
    ("customerName", booking !! "customerName");
    ("date", booking !! "date");
    ("startTime", booking !! "start");
    ("endTime", booking !! "end") ].

Definition get_rooms_bookings : server -> response * server :=
  tryCatch
    (rooms ← find Rooms (FAnd []);
     result ← forOf rooms (fun room result =>
       bookings ← find Bookings (FEq "roomId" (bson (room !! "roomId")));
       forOf bookings (fun booking result =>
         mret (result ++ [roomBookingRow room booking])) result) [];
     mret (Response 200 (Rows result)))
    "Failed to fetch room bookings".

(** [GET /customers/bookings] *)
Definition customerBookingRow (booking room : doc) : jsobj :=
  [ ("customerName", booking !! "customerName");
    ("roomName", room !! "name");
    ("date", booking !! "date");
    ("startTime", booking !! "start");
    ("endTime", booking !! "end") ].

Definition get_customers_bookings : server -> response * server :=
  tryCatch
    (bookings ← find Bookings (FAnd []);
     result ← forOf bookings (fun booking result =>
       rooms ← find Rooms (FEq "roomId" (bson (booking !! "roomId")));
       forOf rooms (fun room result =>
         mret (result ++ [customerBookingRow booking room])) result) [];
     mret (Response 200 (Rows result)))
    "Failed to fetch customer bookings".

(** [GET /customers/:name]; the route parameter is always a string. *)
Definition historyRow (booking : doc) : jsobj :=
  [ ("customerName", booking !! "customerName");
    ("roomName", booking !! "roomId");
    ("date", booking !! "date");
    ("startTime", booking !! "start");
    ("endTime", booking !! "end");
    ("bookingId", booking !! "_id");
    ("bookingDate", booking !! "date");
    ("bookingStatus", booking !! "status") ].

Definition customerNotFound : response :=
  Response 404 (Error "Customer not found or has no bookings").

Definition get_customers_name (name : string) : server -> response * server :=
  tryCatch
    (customerBookings ← find Bookings (FEq "customerName" (VStr name));
     if negb (truthy_array customerBookings) then mret customerNotFound
     else
       let result := List.map historyRow customerBookings in
       mret (Response 200 (Rows result)))
    "Failed to fetch customer bookings".

(** ** The overlap test as the specification words it *)

Notation "a ⪯ b" := (Cmp.lte a b = true) (at level 70, no associativity).

(** The three clauses of the overlap test between a stored interval
    [(s, e)] and a candidate [(s', e')]. *)
Definition overlapb (s e s' e' : value) : bool :=
  Cmp.lte s s' && Cmp.lte s' e
  || Cmp.lte s e' && Cmp.lte e' e
  || Cmp.lte s' s && Cmp.lte e e'.

(** A stored document is on the room and date a request names. *)
Definition sameSlot (roomId date : option value) (d : doc) : bool :=
  bool_decide (fieldOf d "roomId" = bson roomId)
  && bool_decide (fieldOf d "date" = bson date).

(** A booking has its start no later than its end. *)
Definition wellFormed (d : doc) : Prop := fieldOf d "start" ⪯ fieldOf d "end".

(** The conflict test between a request and one stored booking, as the
    specification words it: same room and date, and overlapping times. *)
Definition conflictsWith (req_body b : doc) : bool :=
  sameSlot (req_body !! "roomId") (req_body !! "date") b
  && overlapb (fieldOf b "start") (fieldOf b "end")
              (bson (req_body !! "start")) (bson (req_body !! "end")).

(** The join condition of the two listings: the roomId of the booking
    is the roomId of the room, as the query matcher reads them. *)
Definition sameRoomId (room booking : doc) : bool :=
  bool_decide (fieldOf booking "roomId" = fieldOf room "roomId").


(** ** Serving several booking requests *)

(** A request was admitted: answered 201. *)
Definition admitted (r : response) : bool := Nat.eqb (status r) 201.

(** One after another, each request served to its end before the next. *)
Fixpoint serve (reqs : list doc) (st : server) : list response * server :=
  match reqs with
  | [] => ([], st)
  | req_body :: reqs' =>
      let (r, st') := post_bookings req_body st in
      let (rs, st'') := serve reqs' st' in
      (r :: rs, st'')
  end.

(** Concurrently: a request being handled is suspended at each [await],
    and the store runs the operations of the pending requests in any
    order.  A task is a request before its conflict query, between the
    query and what follows it, or answered. *)
Inductive task : Type :=
  | Received (req_body : doc)
  | Checked (req_body : doc) (existingBooking : option doc)
  | Replied (r : response).

Definition step_task (t : task) (st : server) : task * server :=
  match t with
  | Received req_body =>
      match check_slot req_body st with
      | (Some existingBooking, st') => (Checked req_body existingBooking, st')
      | (None, st') => (Replied (Response 500 (Error "Failed to book room")), st')
      end
  | Checked req_body existingBooking =>
      let (r, st') :=
        tryCatch (admit_booking req_body existingBooking)
                 "Failed to book room" st in
      (Replied r, st')
  | Replied r => (Replied r, st)
  end.

(** [run schedule ts st]: the tasks [ts] advanced in the order the
    schedule names them, one step each time. *)
Fixpoint run (schedule : list nat) (ts : list task) (st : server)
  : list task * server :=
  match schedule with
  | [] => (ts, st)
  | i :: schedule' =>
      match ts !! i with
      | None => run schedule' ts st
      | Some t =>
          let (t', st') := step_task t st in
          run schedule' (<[i := t']> ts) st'
      end
  end.

(** The schedule that serves [n] tasks in turn, from task [k] on: both
    steps of a task before the next task starts. *)
Fixpoint inTurn (k n : nat) : list nat :=
  match n with
  | O => []
  | S n' => k :: k :: inTurn (S k) n'
  end.

(** ** Start-up, the default route and routing *)

(** The server as the module is loaded: both collection variables
    declared and not yet assigned. *)
Definition startup : server := Server None None 0.

(** [connectToMongo]: [db] is what [await client.connect()] leads to, the
    contents of the collections [rooms] and [bookings] of the database,
    or [None] when the connection fails; the failure is caught and
    logged, and the two variables stay as they were. *)
Definition connectToMongo (db : option (list doc * list doc)) (st : server)
  : server :=
  match db with
  | Some (rooms, bookings) => Server (Some rooms) (Some bookings) (nextOid st)
  | None => st
  end.

(** [GET /], outside any [try] and without a look at the collections. *)
Definition get_root : server -> response * server :=
  fun st => (Response 200 (Text "Welcome to Hall Booking App"), st).

Inductive method : Type := GET | POST.

(** A segment of a route path: a literal, or a parameter such as
    [:name]. *)
Inductive seg : Type := Lit (s : string) | Param.

Inductive endpoint : Type :=
  | PostRooms
  | PostBookings
  | GetRoomsBookings
  | GetCustomersBookings
  | GetCustomersName (name : string)
  | GetRoot.

Definition lower_ascii (c : Ascii.ascii) : Ascii.ascii :=
  let n := Ascii.N_of_ascii c in
  if ((65 <=? n) && (n <=? 90))%N then Ascii.ascii_of_N (n + 32) else c.

Fixpoint lower (s : string) : string :=
  match s with
  | EmptyString => EmptyString
  | String c s' => String (lower_ascii c) (lower s')
  end.

(** A route path against the segments of a request path (the path as
    sent, cut at its slashes, a trailing slash dropped).  Literals match
    without regard to case, Express's default; a parameter takes one
    segment that is not empty.  The result is the raw text the parameter
    matched, if there is a parameter; the router decodes it next. *)
Fixpoint match_path (pat : list seg) (path : list string)
  : option (option string) :=
  match pat, path with
  | [], [] => Some None
  | Lit l :: pat', x :: path' =>
      if bool_decide (lower x = l) then match_path pat' path' else None
  | Param :: pat', x :: path' =>
      if bool_decide (x = "") then None
      else match match_path pat' path' with
           | Some _ => Some (Some x)
           | None => None
           end
  | _, _ => None
  end.

(** The value of a hexadecimal digit. *)
Definition hexval (c : Ascii.ascii) : option N :=
  let n := Ascii.N_of_ascii c in
  if ((48 <=? n) && (n <=? 57))%N then Some (n - 48)%N
  else if ((65 <=? n) && (n <=? 70))%N then Some (n - 55)%N
  else if ((97 <=? n) && (n <=? 102))%N then Some (n - 87)%N
  else None.

(** What the first octet of an escaped UTF-8 sequence announces: how
    many octets follow, and the range of the next one (the ranges of
    well-formed UTF-8: no overlong form, no surrogate, nothing above
    U+10FFFF). *)
Definition lead (b : N) : option (nat * N * N) :=
  if ((194 <=? b) && (b <=? 223))%N then Some (1%nat, 128%N, 191%N)
  else if (b =? 224)%N then Some (2%nat, 160%N, 191%N)
  else if ((225 <=? b) && (b <=? 236))%N then Some (2%nat, 128%N, 191%N)
  else if (b =? 237)%N then Some (2%nat, 128%N, 159%N)
  else if ((238 <=? b) && (b <=? 239))%N then Some (2%nat, 128%N, 191%N)
  else if (b =? 240)%N then Some (3%nat, 144%N, 191%N)
  else if ((241 <=? b) && (b <=? 243))%N then Some (3%nat, 128%N, 191%N)
  else if (b =? 244)%N then Some (3%nat, 128%N, 143%N)
  else None.

(** [decodeURIComponent], on strings as the octets of their UTF-8 form.
    [%XX] gives the octet [XX]; the escaped octets have to be well-formed
    UTF-8, and [pending] tells what an unfinished sequence still needs.
    [None] is the URIError of a malformed escape.  A character that is
    not escaped stays; Node reads the request line octet by octet as
    Latin-1, so an octet above 127 sent as it is stands for the character
    of that code, two octets in UTF-8. *)
Fixpoint decodeFrom (s : string) (pending : option (nat * N * N))
  : option string :=
  match s with
  | EmptyString =>
      match pending with None => Some EmptyString | Some _ => None end
  | String c s' =>
      if bool_decide (c = "%"%char) then
        match s' with
        | String h1 (String h2 rest) =>
            match hexval h1, hexval h2 with
            | Some a, Some b =>
                let B := (16 * a + b)%N in
                match pending with
                | None =>
                    if (B <? 128)%N then
                      option_map (String (Ascii.ascii_of_N B))
                                 (decodeFrom rest None)
                    else
                      match lead B with
                      | Some need =>
                          option_map (String (Ascii.ascii_of_N B))
                                     (decodeFrom rest (Some need))
                      | None => None
                      end
                | Some (n, lo, hi) =>
                    if ((lo <=? B) && (B <=? hi))%N then
                      option_map (String (Ascii.ascii_of_N B))
                        (decodeFrom rest
                           match n with
                           | S (S k) => Some (S k, 128%N, 191%N)
                           | _ => None
                           end)
                    else None
                end
            | _, _ => None
            end
        | _ => None
        end
      else
        match pending with
        | Some _ => None
        | None =>
            let n := Ascii.N_of_ascii c in
            if (n <? 128)%N then option_map (String c) (decodeFrom s' None)
            else
              option_map
                (fun t => String (Ascii.ascii_of_N (192 + n / 64))
                            (String (Ascii.ascii_of_N (128 + n mod 64)) t))
                (decodeFrom s' None)
        end
  end.

Definition decodeURIComponent (s : string) : option string :=
  decodeFrom s None.

(** A segment of ASCII characters without a percent sign. *)
Fixpoint plain (s : string) : bool :=
  match s with
  | EmptyString => true
  | String c s' =>
      negb (bool_decide (c = "%"%char))
      && (Ascii.N_of_ascii c <? 128)%N && plain s'
  end.

(** The routes in the order [server.js] registers them. *)
Definition routes : list (method * list seg * (option string -> endpoint)) :=
  [ (POST, [Lit "rooms"], fun _ => PostRooms);
    (POST, [Lit "bookings"], fun _ => PostBookings);
    (GET, [Lit "rooms"; Lit "bookings"], fun _ => GetRoomsBookings);
    (GET, [Lit "customers"; Lit "bookings"], fun _ => GetCustomersBookings);
    (GET, [Lit "customers"; Param], fun p => GetCustomersName (default "" p));
    (GET, [], fun _ => GetRoot) ].

Definition method_eqb (a b : method) : bool :=
  match a, b with
  | GET, GET | POST, POST => true
  | _, _ => false
  end.

(** Where the router sends a request: to a handler of [server.js], or to
    Express's own answers, 400 for a parameter that does not decode and
    404 when no route matches. *)
Inductive routed : Type :=
  | Handled (e : endpoint)
  | BadParam
  | NotFound.

(** The router goes through the routes in order.  It matches the path
    first and decodes the parameter; a parameter that does not decode is
    remembered as an error ([layerError]) and the search goes on, no
    route being taken while the error is pending.  The first route that
    matches path and method handles the request, and no handler passes it
    on. *)
Fixpoint dispatch (rs : list (method * list seg * (option string -> endpoint)))
    (m : method) (path : list string) (layerError : bool) : routed :=
  match rs with
  | [] => if layerError then BadParam else NotFound
  | (m', pat, h) :: rs' =>
      match match_path pat path with
      | None => dispatch rs' m path layerError
      | Some None =>
          if negb layerError && method_eqb m m' then Handled (h None)
          else dispatch rs' m path layerError
      | Some (Some raw) =>
          match decodeURIComponent raw with
          | None => dispatch rs' m path true
          | Some v =>
              if negb layerError && method_eqb m m' then Handled (h (Some v))
              else dispatch rs' m path layerError
          end
      end
  end.

Definition route (m : method) (path : list string) : routed :=
  dispatch routes m path false.

(** The handler of an endpoint, on the parsed body of the request. *)
Definition handle (e : endpoint) (req_body : doc) : server -> response * server :=
  match e with
  | PostRooms => post_rooms req_body
  | PostBookings => post_bookings req_body
  | GetRoomsBookings => get_rooms_bookings
  | GetCustomersBookings => get_customers_bookings
  | GetCustomersName name => get_customers_name name
  | GetRoot => get_root
  end.

(** Requests handled one after another. *)
Fixpoint handleAll (calls : list (endpoint * doc)) (st : server)
  : list response * server :=
  match calls with
  | [] => ([], st)
  | (e, req_body) :: calls' =>
      let (r, st') := handle e req_body st in
      let (rs, st'') := handleAll calls' st' in
      (r :: rs, st'')
  end.

(** The life of the process: the requests that arrive before
    [connectToMongo] is through, its outcome, the requests after it. *)
Definition lifetime (early : list (endpoint * doc))
    (db : option (list doc * list doc)) (late : list (endpoint * doc))
  : list response * list response * server :=
  let (rs1, st1) := handleAll early startup in
  let (rs2, st2) := handleAll late (connectToMongo db st1) in
  (rs1, rs2, st2).

(** What an endpoint answers while the collections are [undefined]. *)
Definition unavailable (e : endpoint) : response :=
  match e with
  | PostRooms => Response 500 (Error "Failed to create room")
  | PostBookings => Response 500 (Error "Failed to book room")
  | GetRoomsBookings => Response 500 (Error "Failed to fetch room bookings")
  | GetCustomersBookings | GetCustomersName _ =>
      Response 500 (Error "Failed to fetch customer bookings")
  | GetRoot => Response 200 (Text "Welcome to Hall Booking App")
  end.

(** A computation that leaves the server state as it finds it. *)
Definition readOnly {A} (h : Handler A) : Prop := forall st, snd (h st) = st.

(** ** Sample data *)

Module Demo.

Definition room (roomId name : string) : doc :=
  list_to_map [("roomId", VStr roomId); ("name", VStr name)].

Definition booking (roomId date start end_ customerName : string) : doc :=
  list_to_map [("roomId", VStr roomId); ("date", VStr date);
               ("start", VStr start); ("end", VStr end_);
               ("customerName", VStr customerName)].

Definition hallA : doc := room "R1" "Hall A".
Definition alice : doc := booking "R1" "2024-01-01" "09:00" "10:00" "Alice".
Definition bob : doc := booking "R1" "2024-01-01" "10:00" "11:00" "Bob".
Definition bobLater : doc := booking "R1" "2024-01-01" "10:01" "11:00" "Bob".
Definition carol : doc := booking "R2" "2024-01-01" "09:00" "10:00" "Carol".
(** Two bookings that run past midnight, end before start. *)
Definition night : doc := booking "R1" "2024-01-01" "22:00" "06:00" "Dan".
Definition dawn : doc := booking "R1" "2024-01-01" "06:00" "05:00" "Eve".

(** The server once connected, with empty collections. *)
Definition connected : server := Server (Some []) (Some []) 0.

(** The server whose connection failed: both variables [undefined]. *)
Definition unconnected : server := Server None None 0.

Definition stored (n : N) (d : doc) : doc := <["_id" := VOid n]> d.

End Demo.

(** ** The order on values *)

Section Order.

Lemma str_leb_refl a : Cmp.str_leb a a = true.
Proof.
  induction a as [|x a IH]; simpl; [done|].
  by rewrite N.ltb_irrefl.
Qed.

Lemma str_leb_trans a b c :
  Cmp.str_leb a b = true -> Cmp.str_leb b c = true -> Cmp.str_leb a c = true.
Proof.
  revert b c. induction a as [|x a IH]; intros [|y b] [|z c]; simpl; try done.
  destruct (N.ltb_spec (Ascii.N_of_ascii x) (Ascii.N_of_ascii y)) as [Hxy|Hxy];
  destruct (N.ltb_spec (Ascii.N_of_ascii y) (Ascii.N_of_ascii z)) as [Hyz|Hyz];
  destruct (N.ltb_spec (Ascii.N_of_ascii x) (Ascii.N_of_ascii z)) as [Hxz|Hxz];
  destruct (N.ltb_spec (Ascii.N_of_ascii y) (Ascii.N_of_ascii x)) as [Hyx|Hyx];
  destruct (N.ltb_spec (Ascii.N_of_ascii z) (Ascii.N_of_ascii y)) as [Hzy|Hzy];
  destruct (N.ltb_spec (Ascii.N_of_ascii z) (Ascii.N_of_ascii x)) as [Hzx|Hzx];
  try done; try lia.
  apply IH.
Qed.

Lemma str_leb_total a b : Cmp.str_leb a b = true \/ Cmp.str_leb b a = true.
Proof.
  revert b. induction a as [|x a IH]; intros [|y b]; simpl; auto.
  destruct (N.ltb_spec (Ascii.N_of_ascii x) (Ascii.N_of_ascii y));
  destruct (N.ltb_spec (Ascii.N_of_ascii y) (Ascii.N_of_ascii x));
  auto; lia.
Qed.

Lemma lte_refl a : a ⪯ a.
Proof.
  destruct a as [|[]| | |]; simpl; try done.
  - apply Z.leb_refl.
  - apply str_leb_refl.
  - apply N.leb_refl.
Qed.

Lemma lte_trans a b c : a ⪯ b -> b ⪯ c -> a ⪯ c.
Proof.
  destruct a as [|[]| | |], b as [|[]| | |], c as [|[]| | |];
    simpl; try done.
  - rewrite !Z.leb_le. lia.
  - apply str_leb_trans.
  - rewrite !N.leb_le. lia.
Qed.

Lemma lte_sameType a b : a ⪯ b -> Cmp.sameType a b = true.
Proof. by destruct a, b. Qed.

Lemma sameType_sym a b : Cmp.sameType a b = Cmp.sameType b a.
Proof. by destruct a, b. Qed.

Lemma sameType_trans a b c :
  Cmp.sameType a b = true -> Cmp.sameType b c = true ->
  Cmp.sameType a c = true.
Proof. by destruct a, b, c. Qed.

Lemma lte_total a b : Cmp.sameType a b = true -> a ⪯ b \/ b ⪯ a.
Proof.
  destruct a as [|[]| | |], b as [|[]| | |]; simpl; try done; auto; intros _.
  - rewrite !Z.leb_le. lia.
  - apply str_leb_total.
  - rewrite !N.leb_le. lia.
Qed.

End Order.

(** ** The conflict query, clause by clause *)

Lemma matches_conflictQuery roomId date start end_ (d : doc) :
  matches (conflictQuery roomId date start end_) d =
  sameSlot roomId date d
  && overlapb (fieldOf d "start") (fieldOf d "end") (bson start) (bson end_).
Proof.
  unfold conflictQuery, sameSlot, overlapb. simpl.
  destruct (bool_decide (fieldOf d "roomId" = bson roomId)),
    (bool_decide (fieldOf d "date" = bson date)),
    (Cmp.lte (fieldOf d "start") (bson start)),
    (Cmp.lte (bson start) (fieldOf d "end")),
    (Cmp.lte (fieldOf d "start") (bson end_)),
    (Cmp.lte (bson end_) (fieldOf d "end")),
    (Cmp.lte (bson start) (fieldOf d "start")),
    (Cmp.lte (fieldOf d "end") (bson end_)); reflexivity.
Qed.

Lemma sameSlot_true roomId date (d : doc) :
  sameSlot roomId date d = true <->
  fieldOf d "roomId" = bson roomId /\ fieldOf d "date" = bson date.
Proof.
  unfold sameSlot. rewrite andb_true_iff, !bool_decide_eq_true. tauto.
Qed.

Lemma overlapb_true s e s' e' :
  overlapb s e s' e' = true <->
  (s ⪯ s' /\ s' ⪯ e) \/ (s ⪯ e' /\ e' ⪯ e) \/ (s' ⪯ s /\ e ⪯ e').
Proof.
  unfold overlapb. rewrite !orb_true_iff, !andb_true_iff. tauto.
Qed.

(** For two intervals with start no later than end the three clauses
    are the usual test: each starts no later than the other ends. *)
Lemma overlapb_wellFormed s e s' e' :
  s ⪯ e -> s' ⪯ e' ->
  overlapb s e s' e' = true <-> s ⪯ e' /\ s' ⪯ e.
Proof.
  intros Hse Hse'. rewrite overlapb_true. split.
  - intros [[H1 H2]|[[H1 H2]|[H1 H2]]]; eauto using lte_trans.
  - intros [H1 H2].
    assert (Cmp.sameType s s' = true) as Hss'.
    { apply (sameType_trans s e s'); [by apply lte_sameType|].
      rewrite sameType_sym. by apply lte_sameType. }
    assert (Cmp.sameType e e' = true) as Hee'.
    { apply (sameType_trans e s e'); [|by apply lte_sameType].
      rewrite sameType_sym. by apply lte_sameType. }
    destruct (lte_total _ _ Hss') as [Hs|Hs]; [left; by split|].
    destruct (lte_total _ _ Hee') as [He|He]; [right; right; by split|].
    right; left. by split.
Qed.

(** ** Admission of a booking *)

Lemma matches_conflictQueryOf req_body (b : doc) :
  matches (conflictQueryOf req_body) b = conflictsWith req_body b.
Proof. apply matches_conflictQuery. Qed.

Lemma truthy_find (f : doc -> bool) (l : list doc) :
  truthy_doc (List.find f l) = existsb f l.
Proof.
  induction l as [|x l IH]; simpl; [done|].
  destruct (f x); simpl; done.
Qed.

Lemma find_pointwise {A} (f g : A -> bool) (l : list A) :
  (forall x, f x = g x) -> List.find f l = List.find g l.
Proof.
  intros Hfg. induction l as [|x l IH]; simpl; [done|].
  by rewrite Hfg, IH.
Qed.


Lemma existsb_In_false {A} (f : A -> bool) (l : list A) :
  existsb f l = false <-> forall x, In x l -> f x = false.
Proof.
  rewrite <- not_true_iff_false, existsb_exists. split.
  - intros H x Hx. apply not_true_iff_false. intros Hf. apply H. eauto.
  - intros H [x [Hx Hf]]. rewrite (H x Hx) in Hf. done.
Qed.

(** What [POST /bookings] does on a connected server. *)
Lemma post_bookings_connected st bs req_body :
  bookingsCollection st = Some bs ->
  post_bookings req_body st =
    if existsb (conflictsWith req_body) bs then (slotTaken, st)
    else match insertOne_doc (nextOid st) req_body bs with
         | None => (Response 500 (Error "Failed to book room"), st)
         | Some (c', used) => (roomBooked, setColl Bookings c' used st)
         end.
Proof.
  intros Hbs.
  unfold post_bookings, tryCatch, check_slot, admit_booking, findOne, insertOne.
  unfold mbind, handler_bind, mret, handler_ret. simpl. rewrite Hbs.
  unfold findOne_doc. rewrite <- (truthy_find (conflictsWith req_body)).
  rewrite (find_pointwise (matches (conflictQueryOf req_body))
             (conflictsWith req_body))
    by (intros; apply matches_conflictQueryOf).
  destruct (List.find (conflictsWith req_body) bs); simpl; [done|].
  rewrite Hbs. by destruct (insertOne_doc (nextOid st) req_body bs) as [[c' used]|].
Qed.

Lemma insertOne_doc_fresh oid (d : doc) (c : list doc) :
  d !! "_id" = None ->
  insertOne_doc oid d c = Some (c ++ [<["_id" := VOid oid]> d], true).
Proof. intros H. unfold insertOne_doc, suppliedId. by rewrite H. Qed.

Lemma post_bookings_free st bs req_body :
  bookingsCollection st = Some bs ->
  req_body !! "_id" = None ->
  existsb (conflictsWith req_body) bs = false ->
  post_bookings req_body st =
    (roomBooked,
     Server (roomsCollection st)
            (Some (bs ++ [<["_id" := VOid (nextOid st)]> req_body]))
            (N.succ (nextOid st))).
Proof.
  intros Hbs Hid Hfree.
  rewrite (post_bookings_connected st bs) by done.
  by rewrite Hfree, insertOne_doc_fresh.
Qed.

Lemma post_bookings_taken st bs req_body :
  bookingsCollection st = Some bs ->
  existsb (conflictsWith req_body) bs = true ->
  post_bookings req_body st = (slotTaken, st).
Proof.
  intros Hbs Htaken.
  rewrite (post_bookings_connected st bs) by done. by rewrite Htaken.
Qed.

(** C1 (as amended).  A stored booking [b] matches the conflict query of
    [POST /bookings] exactly when it is on the requested room and date
    and, with [(s, e)] its interval and [(s', e')] the requested one,
    [s <= s' <= e], or [s <= e' <= e], or [s' <= s] and [e <= e'].  Two
    intervals on one room and date that touch (the end of one is the
    start of the other) are reported as conflicting exactly when the
    stored booking has its start no later than its end, or has its end no
    later than its start while the requested one has its start no later
    than its end. *)
Theorem conflict_query_overlap :
  forall (roomId date start end_ : option value) (b : doc),
    let s := fieldOf b "start" in
    let e := fieldOf b "end" in
    let s' := bson start in
    let e' := bson end_ in
    (matches (conflictQuery roomId date start end_) b = true <->
       (fieldOf b "roomId" = bson roomId /\ fieldOf b "date" = bson date) /\
       ((s ⪯ s' /\ s' ⪯ e) \/ (s ⪯ e' /\ e' ⪯ e) \/ (s' ⪯ s /\ e ⪯ e')))
    /\ (fieldOf b "roomId" = bson roomId -> fieldOf b "date" = bson date ->
        e = s' \/ e' = s ->
        (matches (conflictQuery roomId date start end_) b = true <->
           s ⪯ e \/ (s' ⪯ e' /\ e ⪯ s))).
Proof.
  intros roomId date start end_ b s e s' e'.
  assert (matches (conflictQuery roomId date start end_) b = true <->
          (fieldOf b "roomId" = bson roomId /\ fieldOf b "date" = bson date) /\
          ((s ⪯ s' /\ s' ⪯ e) \/ (s ⪯ e' /\ e' ⪯ e) \/ (s' ⪯ s /\ e ⪯ e')))
    as Hiff.
  { rewrite matches_conflictQuery, andb_true_iff, sameSlot_true, overlapb_true.
    done. }
  split; [exact Hiff|].
  intros Hroom Hdate Htouch. rewrite Hiff. split.
  - intros [_ Hclauses].
    destruct Htouch as [Heq|Heq], Hclauses as [[H1 H2]|[[H1 H2]|[H1 H2]]].
    + left. by rewrite Heq.
    + left. by apply (lte_trans s e' e).
    + right. rewrite <- Heq in H1. split; [|done].
      rewrite <- Heq. done.
    + left. by apply (lte_trans s s' e).
    + left. by rewrite <- Heq.
    + right. rewrite Heq. rewrite Heq in H2. by split.
  - intros Hwf. split; [done|].
    destruct Hwf as [Hse|[Hse' Hes]], Htouch as [Heq|Heq].
    + left. rewrite <- Heq. split; [done|apply lte_refl].
    + right; left. rewrite Heq. split; [apply lte_refl|done].
    + right; right. rewrite <- Heq in *. by split.
    + right; right. rewrite Heq in *. by split.
Qed.

Lemma conflict_query_overlap_witness :
  (fieldOf Demo.alice "roomId" = bson (Demo.bob !! "roomId")
   /\ fieldOf Demo.alice "date" = bson (Demo.bob !! "date")
   /\ fieldOf Demo.alice "start" ⪯ fieldOf Demo.alice "end"
   /\ fieldOf Demo.alice "end" = bson (Demo.bob !! "start"))
  /\ matches (conflictQueryOf Demo.bob) Demo.alice = true.
Proof.
  split; [repeat split; vm_compute; reflexivity|].
  apply (proj2 (conflict_query_overlap
                  (Demo.bob !! "roomId") (Demo.bob !! "date")
                  (Demo.bob !! "start") (Demo.bob !! "end") Demo.alice)).
  - vm_compute; reflexivity.
  - vm_compute; reflexivity.
  - left. vm_compute; reflexivity.
  - left. vm_compute; reflexivity.
Defined.

(** C1 without the condition on start and end: the stored booking 22:00 to 06:00 and
    the request 06:00 to 05:00 on its room and date touch, and the
    conflict query does not match; the request is admitted. *)
Lemma touching_not_conflicting :
  fieldOf Demo.night "roomId" = bson (Demo.dawn !! "roomId")
  /\ fieldOf Demo.night "date" = bson (Demo.dawn !! "date")
  /\ fieldOf Demo.night "end" = bson (Demo.dawn !! "start")
  /\ matches (conflictQueryOf Demo.dawn) Demo.night = false
  /\ fst (post_bookings Demo.dawn (Server (Some []) (Some [Demo.night]) 0))
     = roomBooked.
Proof. repeat split; vm_compute; reflexivity. Qed.

(** C9 (as amended).  For two bookings that each have their start no
    later than their end, the conflict test is symmetric: the first as
    request against the second as stored gives what the second as request
    gives against the first as stored. *)
Theorem conflict_symmetric :
  forall a b : doc,
    wellFormed a -> wellFormed b ->
    matches (conflictQueryOf a) b = matches (conflictQueryOf b) a.
Proof.
  intros a b Ha Hb. rewrite !matches_conflictQueryOf.
  unfold conflictsWith, sameSlot.
  change (bson (a !! ?f)) with (fieldOf a f).
  change (bson (b !! ?f)) with (fieldOf b f).
  f_equal.
  - f_equal; apply bool_decide_ext; split; congruence.
  - apply eq_true_iff_eq.
    rewrite !overlapb_wellFormed by done. tauto.
Qed.

Lemma conflict_symmetric_witness :
  (wellFormed Demo.alice /\ wellFormed Demo.bob)
  /\ matches (conflictQueryOf Demo.alice) Demo.bob
     = matches (conflictQueryOf Demo.bob) Demo.alice.
Proof.
  split; [split; vm_compute; reflexivity|].
  apply (conflict_symmetric Demo.alice Demo.bob); vm_compute; reflexivity.
Defined.

(** C9 without the condition on start and end: against the stored booking 22:00 to
    06:00 the request 09:00 to 10:00 conflicts, while against the stored
    booking 09:00 to 10:00 the request 22:00 to 06:00 does not. *)
Lemma conflict_not_symmetric :
  matches (conflictQueryOf Demo.alice) Demo.night = true
  /\ matches (conflictQueryOf Demo.night) Demo.alice = false.
Proof. split; vm_compute; reflexivity. Qed.



Lemma insertOne_doc_generated oid (d : doc) (c : list doc) :
  suppliedId d = None ->
  insertOne_doc oid d c = Some (c ++ [<["_id" := VOid oid]> d], true).
Proof. intros H. unfold insertOne_doc. by rewrite H. Qed.






(** ** Creating a room *)




(** ** What the admission depends on *)

Lemma conflictsWith_sameSlot req_body (b : doc) :
  conflictsWith req_body b = true ->
  sameSlot (req_body !! "roomId") (req_body !! "date") b = true.
Proof. unfold conflictsWith. rewrite andb_true_iff. tauto. Qed.

Lemma existsb_filter {A} (f g : A -> bool) (l : list A) :
  (forall x, f x = true -> g x = true) ->
  existsb f (List.filter g l) = existsb f l.
Proof.
  intros Hfg. induction l as [|x l IH]; simpl; [done|].
  destruct (g x) eqn:Hg; simpl.
  - by rewrite IH.
  - rewrite IH. destruct (f x) eqn:Hf; [|done].
    rewrite (Hfg x Hf) in Hg. done.
Qed.

Lemma existsb_pointwise {A} (f g : A -> bool) (l : list A) :
  (forall x, f x = g x) -> existsb f l = existsb g l.
Proof.
  intros Hfg. induction l as [|x l IH]; simpl; [done|].
  by rewrite Hfg, IH.
Qed.

Lemma conflictsWith_fields (a a' b : doc) :
  a !! "roomId" = a' !! "roomId" -> a !! "date" = a' !! "date" ->
  a !! "start" = a' !! "start" -> a !! "end" = a' !! "end" ->
  conflictsWith a b = conflictsWith a' b.
Proof. unfold conflictsWith. by intros -> -> -> ->. Qed.

(** C10 (as amended).  On connected servers, for requests whose
    roomId, date, start and end are scalars or absent: whether
    [POST /bookings] answers that the slot is taken depends only on these
    four fields and on the stored bookings of that room and date; and for
    a request without [_id], or with [_id] [null], so does the whole
    answer.  Two requests with the four fields alike, served on two
    servers whose bookings of that room and date are the same and in the
    same order, are both refused or both not, and are answered alike when
    neither brings its own [_id], whatever the other bookings, the rooms
    and the other fields are. *)
Theorem post_bookings_local :
  forall (st1 st2 : server) (bs1 bs2 : list doc) (body1 body2 : doc),
    bookingsCollection st1 = Some bs1 ->
    bookingsCollection st2 = Some bs2 ->
    body1 !! "roomId" = body2 !! "roomId" ->
    body1 !! "date" = body2 !! "date" ->
    body1 !! "start" = body2 !! "start" ->
    body1 !! "end" = body2 !! "end" ->
    List.filter (sameSlot (body1 !! "roomId") (body1 !! "date")) bs1
      = List.filter (sameSlot (body1 !! "roomId") (body1 !! "date")) bs2 ->
    (fst (post_bookings body1 st1) = slotTaken
       <-> fst (post_bookings body2 st2) = slotTaken)
    /\ (suppliedId body1 = None -> suppliedId body2 = None ->
        fst (post_bookings body1 st1) = fst (post_bookings body2 st2)).
Proof.
  intros st1 st2 bs1 bs2 body1 body2 H1 H2 Hroom Hdate Hstart Hend Hslice.
  rewrite (post_bookings_connected st1 bs1), (post_bookings_connected st2 bs2)
    by done.
  assert (existsb (conflictsWith body2) bs2 = existsb (conflictsWith body1) bs1)
    as ->.
  { rewrite (existsb_pointwise (conflictsWith body2) (conflictsWith body1))
      by (intros b; symmetry; by apply conflictsWith_fields).
    rewrite <- (existsb_filter (conflictsWith body1)
                  (sameSlot (body1 !! "roomId") (body1 !! "date")) bs2)
      by apply conflictsWith_sameSlot.
    rewrite <- (existsb_filter (conflictsWith body1)
                  (sameSlot (body1 !! "roomId") (body1 !! "date")) bs1)
      by apply conflictsWith_sameSlot.
    by rewrite Hslice. }
  split.
  - destruct (existsb (conflictsWith body1) bs1); [done|].
    destruct (insertOne_doc (nextOid st1) body1 bs1) as [[c1 u1]|],
      (insertOne_doc (nextOid st2) body2 bs2) as [[c2 u2]|]; simpl;
      split; discriminate.
  - intros Hid1 Hid2. rewrite !insertOne_doc_generated by done.
    by destruct (existsb (conflictsWith body1) bs1).
Qed.

Lemma post_bookings_local_witness :
  (bookingsCollection (Server (Some []) (Some [Demo.alice; Demo.carol]) 5)
     = Some [Demo.alice; Demo.carol]
   /\ bookingsCollection (Server (Some [Demo.hallA]) (Some [Demo.alice]) 9)
     = Some [Demo.alice]
   /\ suppliedId Demo.bob = None
   /\ List.filter (sameSlot (Demo.bob !! "roomId") (Demo.bob !! "date"))
        [Demo.alice; Demo.carol]
      = List.filter (sameSlot (Demo.bob !! "roomId") (Demo.bob !! "date"))
          [Demo.alice])
  /\ fst (post_bookings Demo.bob
            (Server (Some []) (Some [Demo.alice; Demo.carol]) 5))
     = fst (post_bookings Demo.bob
              (Server (Some [Demo.hallA]) (Some [Demo.alice]) 9)).
Proof.
  split; [split; [reflexivity|split; [reflexivity|split; reflexivity]]|].
  apply (post_bookings_local
           (Server (Some []) (Some [Demo.alice; Demo.carol]) 5)
           (Server (Some [Demo.hallA]) (Some [Demo.alice]) 9)
           [Demo.alice; Demo.carol] [Demo.alice] Demo.bob Demo.bob);
    reflexivity.
Defined.

(** C10 for every request: two stores with no booking at all on the
    requested room and date answer one request differently, 500 and 201,
    when the request brings an [_id] that a booking of another room has
    in one of them. *)
Lemma own_id_leaks_other_room :
  List.filter (sameSlot ((<["_id" := VNum 7]> Demo.alice) !! "roomId")
                        ((<["_id" := VNum 7]> Demo.alice) !! "date"))
    [<["_id" := VNum 7]> Demo.carol]
  = List.filter (sameSlot ((<["_id" := VNum 7]> Demo.alice) !! "roomId")
                          ((<["_id" := VNum 7]> Demo.alice) !! "date")) []
  /\ fst (post_bookings (<["_id" := VNum 7]> Demo.alice)
            (Server (Some []) (Some [<["_id" := VNum 7]> Demo.carol]) 0))
     = Response 500 (Error "Failed to book room")
  /\ fst (post_bookings (<["_id" := VNum 7]> Demo.alice)
            (Server (Some []) (Some []) 0))
     = roomBooked.
Proof. repeat split; vm_compute; reflexivity. Qed.

(** ** The listings *)

Lemma forOf_push {A} (xs : list A) (row : A -> jsobj) (result : list jsobj)
    (st : server) :
  forOf xs (fun x result => mret (result ++ [row x])) result st
  = (Some (result ++ List.map row xs), st).
Proof.
  revert result. induction xs as [|x xs IH]; intros result; simpl.
  - by rewrite app_nil_r.
  - unfold mbind, handler_bind, mret, handler_ret. simpl.
    fold (@handler_ret (list jsobj)). rewrite IH.
    by rewrite <- app_assoc.
Qed.

(** The nested loops of a listing: for each outer document the inner
    ones the query selects, a row per pair. *)
Lemma forOf_join (k : collection) (inner : list doc) (sel : doc -> query)
    (row : doc -> doc -> jsobj) (outer : list doc) (result : list jsobj)
    (st : server) :
  getColl k st = Some inner ->
  forOf outer (fun x result =>
    ys ← find k (sel x);
    forOf ys (fun y result => mret (result ++ [row x y])) result) result st
  = (Some (result ++
           flat_map (fun x => List.map (row x) (find_docs (sel x) inner)) outer),
     st).
Proof.
  intros Hk. revert result.
  induction outer as [|x outer IH]; intros result; simpl.
  - by rewrite app_nil_r.
  - unfold mbind at 1, handler_bind at 1.
    unfold mbind at 1, handler_bind at 1. unfold find at 1. rewrite Hk.
    rewrite forOf_push. rewrite IH. by rewrite <- app_assoc.
Qed.

Lemma filter_pairs {A B} (P : A -> B -> bool) (x : A) (ys : list B) :
  List.filter (fun p => P (fst p) (snd p)) (List.map (fun y => (x, y)) ys)
  = List.map (fun y => (x, y)) (List.filter (P x) ys).
Proof.
  induction ys as [|y ys IH]; simpl; [done|].
  destruct (P x y); simpl; by rewrite IH.
Qed.

(** The rows of a join are the rows of the matching pairs of the product
    of the two collections, outer collection first. *)
Lemma join_list_prod {A B C} (P : A -> B -> bool) (row : A -> B -> C)
    (xs : list A) (ys : list B) :
  flat_map (fun x => List.map (row x) (List.filter (P x) ys)) xs
  = List.map (fun p => row (fst p) (snd p))
      (List.filter (fun p => P (fst p) (snd p)) (list_prod xs ys)).
Proof.
  induction xs as [|x xs IH]; simpl; [done|].
  rewrite List.filter_app, List.map_app, filter_pairs, List.map_map, IH. done.
Qed.

Lemma find_docs_all (c : list doc) : find_docs (FAnd []) c = c.
Proof.
  unfold find_docs. induction c as [|d c IH]; simpl; [done|].
  by f_equal.
Qed.

Lemma get_rooms_bookings_connected st rs bs :
  roomsCollection st = Some rs ->
  bookingsCollection st = Some bs ->
  get_rooms_bookings st =
    (Response 200 (Rows
       (flat_map (fun room =>
          List.map (roomBookingRow room) (List.filter (sameRoomId room) bs)) rs)),
     st).
Proof.
  intros Hrs Hbs. unfold get_rooms_bookings, tryCatch.
  unfold mbind at 1, handler_bind at 1. unfold find at 1. simpl getColl.
  rewrite Hrs. unfold mbind at 1, handler_bind at 1.
  rewrite (forOf_join Bookings bs) by done.
  rewrite find_docs_all. reflexivity.
Qed.

Lemma get_customers_bookings_connected st rs bs :
  roomsCollection st = Some rs ->
  bookingsCollection st = Some bs ->
  get_customers_bookings st =
    (Response 200 (Rows
       (flat_map (fun booking =>
          List.map (customerBookingRow booking)
            (List.filter (fun room => sameRoomId booking room) rs)) bs)),
     st).
Proof.
  intros Hrs Hbs. unfold get_customers_bookings, tryCatch.
  unfold mbind at 1, handler_bind at 1. unfold find at 1. simpl getColl.
  rewrite Hbs. unfold mbind at 1, handler_bind at 1.
  rewrite (forOf_join Rooms rs) by done.
  rewrite find_docs_all. reflexivity.
Qed.

Lemma sameRoomId_sym (a b : doc) : sameRoomId a b = sameRoomId b a.
Proof. unfold sameRoomId. apply bool_decide_ext. split; congruence. Qed.

Lemma filter_none {A} (f : A -> bool) (l : list A) :
  (forall x, In x l -> f x = false) -> List.filter f l = [].
Proof.
  induction l as [|x l IH]; intros H; simpl; [done|].
  rewrite (H x) by (by left). apply IH. intros y Hy. apply H. by right.
Qed.

Lemma flat_map_skip {A B} (f : A -> list B) (pre post : list A) (x : A) :
  f x = [] -> flat_map f (pre ++ x :: post) = flat_map f (pre ++ post).
Proof.
  intros Hx. rewrite !flat_map_app. simpl. by rewrite Hx.
Qed.

(** C4.  On a connected server [GET /rooms/bookings] answers 200 with
    one row for each pair of a room and a booking with the room's roomId
    (as the query matcher reads roomIds: a missing one like [null]), the
    pairs taken room by room in the order of the rooms and, within a
    room, in the order of the bookings; a row holds the room's name and
    roomId and the booking's status, customerName, date, start and end.
    A room without such a booking adds no row. *)
Theorem get_rooms_bookings_rows :
  forall (st : server) (rs bs : list doc),
    roomsCollection st = Some rs ->
    bookingsCollection st = Some bs ->
    get_rooms_bookings st =
      (Response 200 (Rows
         (List.map
            (fun p : doc * doc =>
               let (room, booking) := p in
               [ ("roomName", room !! "name");
                 ("roomId", room !! "roomId");
                 ("bookedStatus", booking !! "status");
                 ("customerName", booking !! "customerName");
                 ("date", booking !! "date");
                 ("startTime", booking !! "start");
                 ("endTime", booking !! "end") ])
            (List.filter (fun p => sameRoomId (fst p) (snd p))
                         (list_prod rs bs)))),
       st)
    /\ forall pre room post,
         rs = pre ++ room :: post ->
         (forall b, In b bs -> sameRoomId room b = false) ->
         fst (get_rooms_bookings st)
         = fst (get_rooms_bookings
                  (Server (Some (pre ++ post)) (Some bs) (nextOid st))).
Proof.
  intros st rs bs Hrs Hbs. split.
  - rewrite (get_rooms_bookings_connected st rs bs) by done.
    rewrite (join_list_prod sameRoomId roomBookingRow).
    do 3 f_equal. apply List.map_ext. by intros [room booking].
  - intros pre room post -> Hnone.
    rewrite (get_rooms_bookings_connected st (pre ++ room :: post) bs) by done.
    rewrite (get_rooms_bookings_connected _ (pre ++ post) bs) by done.
    simpl. do 2 f_equal. apply flat_map_skip.
    by rewrite filter_none.
Qed.

Lemma get_rooms_bookings_rows_witness :
  (roomsCollection
     (Server (Some [Demo.room "R9" "Empty"; Demo.hallA])
             (Some [Demo.alice; Demo.carol; Demo.bobLater]) 0)
   = Some [Demo.room "R9" "Empty"; Demo.hallA]
   /\ bookingsCollection
     (Server (Some [Demo.room "R9" "Empty"; Demo.hallA])
             (Some [Demo.alice; Demo.carol; Demo.bobLater]) 0)
   = Some [Demo.alice; Demo.carol; Demo.bobLater])
  /\ fst (get_rooms_bookings
       (Server (Some [Demo.room "R9" "Empty"; Demo.hallA])
               (Some [Demo.alice; Demo.carol; Demo.bobLater]) 0))
     = Response 200 (Rows
         [ [ ("roomName", Some (VStr "Hall A")); ("roomId", Some (VStr "R1"));
             ("bookedStatus", None); ("customerName", Some (VStr "Alice"));
             ("date", Some (VStr "2024-01-01"));
             ("startTime", Some (VStr "09:00")); ("endTime", Some (VStr "10:00")) ];
           [ ("roomName", Some (VStr "Hall A")); ("roomId", Some (VStr "R1"));
             ("bookedStatus", None); ("customerName", Some (VStr "Bob"));
             ("date", Some (VStr "2024-01-01"));
             ("startTime", Some (VStr "10:01")); ("endTime", Some (VStr "11:00")) ] ]).
Proof.
  split; [split; reflexivity|].
  rewrite (proj1 (get_rooms_bookings_rows
    (Server (Some [Demo.room "R9" "Empty"; Demo.hallA])
            (Some [Demo.alice; Demo.carol; Demo.bobLater]) 0)
    [Demo.room "R9" "Empty"; Demo.hallA]
    [Demo.alice; Demo.carol; Demo.bobLater] eq_refl eq_refl)).
  vm_compute. reflexivity.
Defined.

(** C5.  On a connected server, a booking whose roomId is the roomId of
    no stored room adds no row to [GET /customers/bookings]: the answer
    is the one the server gives without that booking, and it is a 200,
    not an error. *)
Theorem get_customers_bookings_unmatched :
  forall (st : server) (rs pre post : list doc) (b : doc),
    roomsCollection st = Some rs ->
    bookingsCollection st = Some (pre ++ b :: post) ->
    (forall room, In room rs -> sameRoomId room b = false) ->
    fst (get_customers_bookings st)
    = fst (get_customers_bookings
             (Server (Some rs) (Some (pre ++ post)) (nextOid st)))
    /\ status (fst (get_customers_bookings st)) = 200.
Proof.
  intros st rs pre post b Hrs Hbs Hnone.
  rewrite (get_customers_bookings_connected st rs (pre ++ b :: post)) by done.
  rewrite (get_customers_bookings_connected _ rs (pre ++ post)) by done.
  simpl. split; [|done]. do 2 f_equal. apply flat_map_skip.
  rewrite filter_none; [done|].
  intros room Hroom. rewrite sameRoomId_sym. by apply Hnone.
Qed.

Lemma get_customers_bookings_unmatched_witness :
  (roomsCollection (Server (Some [Demo.hallA])
                           (Some [Demo.alice; Demo.carol; Demo.bobLater]) 0)
   = Some [Demo.hallA]
   /\ bookingsCollection (Server (Some [Demo.hallA])
                           (Some [Demo.alice; Demo.carol; Demo.bobLater]) 0)
   = Some ([Demo.alice] ++ Demo.carol :: [Demo.bobLater])
   /\ forall room, In room [Demo.hallA] -> sameRoomId room Demo.carol = false)
  /\ fst (get_customers_bookings
            (Server (Some [Demo.hallA])
                    (Some [Demo.alice; Demo.carol; Demo.bobLater]) 0))
     = fst (get_customers_bookings
              (Server (Some [Demo.hallA])
                      (Some ([Demo.alice] ++ [Demo.bobLater])) 0))
  /\ status (fst (get_customers_bookings
                    (Server (Some [Demo.hallA])
                            (Some [Demo.alice; Demo.carol; Demo.bobLater]) 0)))
     = 200.
Proof.
  assert (forall room, In room [Demo.hallA] -> sameRoomId room Demo.carol = false)
    as Hnone.
  { intros room [<-|[]]. vm_compute. reflexivity. }
  split; [repeat split; [reflexivity..|exact Hnone]|].
  apply (get_customers_bookings_unmatched
           (Server (Some [Demo.hallA])
                   (Some [Demo.alice; Demo.carol; Demo.bobLater]) 0)
           [Demo.hallA] [Demo.alice] [Demo.bobLater] Demo.carol);
    [reflexivity|reflexivity|exact Hnone].
Defined.

(** ** A customer's history *)

Lemma get_customers_name_connected st bs name :
  bookingsCollection st = Some bs ->
  get_customers_name name st =
    (Response 200 (Rows
       (List.map historyRow
          (List.filter
             (fun b => bool_decide (b !! "customerName" = Some (VStr name)))
             bs))),
     st).
Proof.
  intros Hbs. unfold get_customers_name, tryCatch.
  unfold mbind, handler_bind, mret, handler_ret, find. simpl. rewrite Hbs.
  simpl. do 4 f_equal. unfold find_docs.
  apply List.filter_ext. intros b. simpl. apply bool_decide_ext.
  unfold fieldOf, bson. destruct (b !! "customerName"); simpl; split; congruence.
Qed.

(** C6.  [GET /customers/:name] never answers 404: the array the query
    gives is truthy also when it is empty, so the not-found branch is
    never taken; on a connected server a name that no stored booking has
    as its customerName gets a 200 with no rows. *)
Theorem get_customers_name_no_match :
  (forall (st : server) (name : string),
     status (fst (get_customers_name name st)) <> 404
     /\ fst (get_customers_name name st) <> customerNotFound)
  /\ (forall (st : server) (bs : list doc) (name : string),
        bookingsCollection st = Some bs ->
        (forall b, In b bs -> b !! "customerName" <> Some (VStr name)) ->
        get_customers_name name st = (Response 200 (Rows []), st)).
Proof.
  split.
  - intros st name. destruct (bookingsCollection st) as [bs|] eqn:Hbs.
    + rewrite (get_customers_name_connected st bs) by done. simpl. done.
    + unfold get_customers_name, tryCatch.
      unfold mbind, handler_bind, find. simpl. rewrite Hbs. simpl. done.
  - intros st bs name Hbs Hnone.
    rewrite (get_customers_name_connected st bs) by done.
    rewrite filter_none; [done|].
    intros b Hb. apply bool_decide_eq_false. by apply Hnone.
Qed.

Lemma get_customers_name_no_match_witness :
  (bookingsCollection (Server (Some []) (Some [Demo.alice]) 0)
   = Some [Demo.alice]
   /\ forall b, In b [Demo.alice] ->
        b !! "customerName" <> Some (VStr "NoSuchCustomer"))
  /\ get_customers_name "NoSuchCustomer" (Server (Some []) (Some [Demo.alice]) 0)
     = (Response 200 (Rows []), Server (Some []) (Some [Demo.alice]) 0).
Proof.
  assert (forall b, In b [Demo.alice] ->
            b !! "customerName" <> Some (VStr "NoSuchCustomer")) as Hnone.
  { intros b [<-|[]]. vm_compute. discriminate. }
  split; [split; [reflexivity|exact Hnone]|].
  apply (proj2 get_customers_name_no_match
           (Server (Some []) (Some [Demo.alice]) 0) [Demo.alice]
           "NoSuchCustomer"); [reflexivity|exact Hnone].
Defined.

(** C7.  On a connected server [GET /customers/:name] answers 200 with
    one row for each stored booking whose customerName is exactly the
    string [name], in the order of the bookings; the row holds the
    booking's customerName, its roomId under the key roomName, its date
    under date and again under bookingDate, its start, end and status,
    and its [_id] as bookingId. *)
Theorem get_customers_name_rows :
  forall (st : server) (bs : list doc) (name : string),
    bookingsCollection st = Some bs ->
    get_customers_name name st =
      (Response 200 (Rows
         (List.map
            (fun booking : doc =>
               [ ("customerName", booking !! "customerName");
                 ("roomName", booking !! "roomId");
                 ("date", booking !! "date");
                 ("startTime", booking !! "start");
                 ("endTime", booking !! "end");
                 ("bookingId", booking !! "_id");
                 ("bookingDate", booking !! "date");
                 ("bookingStatus", booking !! "status") ])
            (List.filter
               (fun b => bool_decide (b !! "customerName" = Some (VStr name)))
               bs))),
       st).
Proof.
  intros st bs name Hbs. by rewrite (get_customers_name_connected st bs).
Qed.

Lemma get_customers_name_rows_witness :
  bookingsCollection
    (Server (Some [])
       (Some [Demo.stored 0 Demo.alice;
              Demo.stored 1 (Demo.booking "R1" "2024-01-02" "09:00" "10:00" "alice")])
       2)
  = Some [Demo.stored 0 Demo.alice;
          Demo.stored 1 (Demo.booking "R1" "2024-01-02" "09:00" "10:00" "alice")]
  /\ fst (get_customers_name "Alice"
       (Server (Some [])
          (Some [Demo.stored 0 Demo.alice;
                 Demo.stored 1
                   (Demo.booking "R1" "2024-01-02" "09:00" "10:00" "alice")])
          2))
     = Response 200 (Rows
         [ [ ("customerName", Some (VStr "Alice"));
             ("roomName", Some (VStr "R1"));
             ("date", Some (VStr "2024-01-01"));
             ("startTime", Some (VStr "09:00"));
             ("endTime", Some (VStr "10:00"));
             ("bookingId", Some (VOid 0));
             ("bookingDate", Some (VStr "2024-01-01"));
             ("bookingStatus", None) ] ]).
Proof.
  split; [reflexivity|].
  rewrite (get_customers_name_rows
    (Server (Some [])
       (Some [Demo.stored 0 Demo.alice;
              Demo.stored 1 (Demo.booking "R1" "2024-01-02" "09:00" "10:00" "alice")])
       2)
    [Demo.stored 0 Demo.alice;
     Demo.stored 1 (Demo.booking "R1" "2024-01-02" "09:00" "10:00" "alice")]
    "Alice" eq_refl).
  vm_compute. reflexivity.
Defined.

(** ** Several requests for one slot *)

Lemma fieldOf_stored (d : doc) (v : value) (f : string) :
  f <> "_id" -> fieldOf (<["_id" := v]> d) f = fieldOf d f.
Proof. intros Hf. unfold fieldOf. by rewrite lookup_insert_ne. Qed.






Lemma existsb_app_last {A} (f : A -> bool) (l : list A) (x : A) :
  f x = true -> existsb f (l ++ [x]) = true.
Proof.
  intros Hx. rewrite existsb_app. simpl. rewrite Hx.
  by rewrite orb_true_r.
Qed.


(** The handler, cut at its first [await]. *)
Lemma post_bookings_two_parts (req_body : doc) (st : server) :
  post_bookings req_body st =
    match check_slot req_body st with
    | (Some existingBooking, st') =>
        tryCatch (admit_booking req_body existingBooking)
                 "Failed to book room" st'
    | (None, st') => (Response 500 (Error "Failed to book room"), st')
    end.
Proof.
  unfold post_bookings, tryCatch, mbind, handler_bind.
  by destruct (check_slot req_body st) as [[e|] st'].
Qed.

Lemma check_slot_reads (req_body : doc) (st : server) :
  snd (check_slot req_body st) = st.
Proof.
  unfold check_slot, findOne. by destruct (getColl Bookings st).
Qed.

(** A task run alone is the handler. *)
Lemma step_task_twice (req_body : doc) (st : server) :
  exists t, step_task (Received req_body) st = (t, st)
    /\ step_task t st
       = (Replied (fst (post_bookings req_body st)),
          snd (post_bookings req_body st)).
Proof.
  rewrite post_bookings_two_parts. unfold step_task at 1.
  pose proof (check_slot_reads req_body st) as Hst.
  destruct (check_slot req_body st) as [[e|] st']; simpl in Hst; subst st'.
  - eexists. split; [reflexivity|]. simpl.
    by destruct (tryCatch (admit_booking req_body e) "Failed to book room" st).
  - eexists. split; [reflexivity|]. done.
Qed.

(** X17.  Serving in turn is the schedule [inTurn]: the tasks advanced
    two steps each, one task after the other, end with the answers and
    in the state of the handler called on the requests one after
    another. *)
Lemma run_inTurn (reqs : list doc) (answered : list response) (st : server) :
  run (inTurn (length answered) (length reqs))
      (List.map Replied answered ++ List.map Received reqs) st
  = (List.map Replied (answered ++ fst (serve reqs st)), snd (serve reqs st)).
Proof.
  revert answered st. induction reqs as [|r reqs IH]; intros answered st; simpl.
  - by rewrite !app_nil_r.
  - destruct (step_task_twice r st) as [t [H1 H2]].
    assert (length (List.map Replied answered) = length answered) as Hlen
      by apply List.length_map.
    rewrite list_lookup_middle by done. rewrite H1.
    rewrite insert_app_r_alt by lia. rewrite Hlen, Nat.sub_diag. simpl.
    rewrite list_lookup_middle by done. rewrite H2.
    rewrite insert_app_r_alt by lia. rewrite Hlen, Nat.sub_diag. simpl.
    destruct (post_bookings r st) as [resp st'] eqn:Hpost. simpl.
    specialize (IH (answered ++ [resp]) st').
    rewrite length_app, Nat.add_1_r in IH. simpl in IH.
    rewrite List.map_app in IH. simpl in IH. rewrite <- app_assoc in IH.
    simpl in IH. rewrite IH.
    destruct (serve reqs st') as [rs st'']. simpl.
    by rewrite <- app_assoc.
Qed.







(** Before the connection is up both collections are [undefined] and
    every handler answers 500. *)
Lemma unconnected_answers_500 (req_body : doc) (name : string) :
  status (fst (post_rooms req_body Demo.unconnected)) = 500
  /\ status (fst (post_bookings req_body Demo.unconnected)) = 500
  /\ status (fst (get_rooms_bookings Demo.unconnected)) = 500
  /\ status (fst (get_customers_bookings Demo.unconnected)) = 500
  /\ status (fst (get_customers_name name Demo.unconnected)) = 500.
Proof. repeat split. Qed.

(** The scenario of the specification: a room, a booking 09:00 to 10:00,
    a back-to-back request 10:00 to 11:00 refused, a request 10:01 to
    11:00 admitted, and the history of the first customer. *)
Example scenario_back_to_back :
  let st1 := snd (post_rooms Demo.hallA Demo.connected) in
  let (r2, st2) := post_bookings Demo.alice st1 in
  let (r3, st3) := post_bookings Demo.bob st2 in
  let (r4, st4) := post_bookings Demo.bobLater st3 in
  [status r2; status r3; status r4] = [201; 400; 201]
  /\ bookingsCollection st4
     = Some [Demo.stored 1 Demo.alice; Demo.stored 2 Demo.bobLater]
  /\ fst (get_customers_name "Alice" st4)
     = Response 200 (Rows [historyRow (Demo.stored 1 Demo.alice)]).
Proof. vm_compute. repeat split. Qed.

(** * Further properties of the handlers *)

(** ** Reading never writes *)

Lemma readOnly_ret {A} (a : A) : readOnly (mret a : Handler A).
Proof. by intros st. Qed.

Lemma readOnly_find (k : collection) (q : query) : readOnly (find k q).
Proof. intros st. unfold find. by destruct (getColl k st). Qed.

Lemma readOnly_bind {A B} (m : Handler A) (k : A -> Handler B) :
  readOnly m -> (forall a, readOnly (k a)) -> readOnly (m ≫= k).
Proof.
  intros Hm Hk st. unfold mbind, handler_bind.
  specialize (Hm st). destruct (m st) as [[a|] st']; simpl in *; subst st'.
  - apply Hk.
  - done.
Qed.

Lemma readOnly_forOf {A S} (xs : list A) (body : A -> S -> Handler S) (s : S) :
  (forall x s', readOnly (body x s')) -> readOnly (forOf xs body s).
Proof.
  intros Hbody. revert s. induction xs as [|x xs IH]; intros s; simpl.
  - apply readOnly_ret.
  - apply readOnly_bind; [apply Hbody|]. intros s'. apply IH.
Qed.

Lemma readOnly_tryCatch (h : Handler response) (msg : string) (st : server) :
  readOnly h -> snd (tryCatch h msg st) = st.
Proof.
  intros Hh. unfold tryCatch. specialize (Hh st).
  by destruct (h st) as [[r|] st'].
Qed.

Lemma get_rooms_bookings_reads (st : server) :
  snd (get_rooms_bookings st) = st.
Proof.
  apply readOnly_tryCatch.
  apply readOnly_bind; [apply readOnly_find|]. intros rooms.
  apply readOnly_bind; [|intros; apply readOnly_ret].
  apply readOnly_forOf. intros room result.
  apply readOnly_bind; [apply readOnly_find|]. intros bookings.
  apply readOnly_forOf. intros; apply readOnly_ret.
Qed.

Lemma get_customers_bookings_reads (st : server) :
  snd (get_customers_bookings st) = st.
Proof.
  apply readOnly_tryCatch.
  apply readOnly_bind; [apply readOnly_find|]. intros bookings.
  apply readOnly_bind; [|intros; apply readOnly_ret].
  apply readOnly_forOf. intros booking result.
  apply readOnly_bind; [apply readOnly_find|]. intros rooms.
  apply readOnly_forOf. intros; apply readOnly_ret.
Qed.

Lemma get_customers_name_reads (name : string) (st : server) :
  snd (get_customers_name name st) = st.
Proof.
  apply readOnly_tryCatch.
  apply readOnly_bind; [apply readOnly_find|]. intros customerBookings.
  simpl. apply readOnly_ret.
Qed.

(** X1.  The three listings and the default route never change the
    server state, whatever it is and whatever they answer. *)
Theorem reads_keep_state :
  forall (st : server) (name : string),
    snd (get_rooms_bookings st) = st
    /\ snd (get_customers_bookings st) = st
    /\ snd (get_customers_name name st) = st
    /\ snd (get_root st) = st.
Proof.
  intros st name. split; [|split; [|split]].
  - apply get_rooms_bookings_reads.
  - apply get_customers_bookings_reads.
  - apply get_customers_name_reads.
  - reflexivity.
Qed.

(** ** The answers a handler can give *)

Lemma insertOne_doc_shape oid (d : doc) (c c' : list doc) (used : bool) :
  insertOne_doc oid d c = Some (c', used) ->
  exists d', c' = c ++ [d']
    /\ (forall f, f <> "_id" -> d' !! f = d !! f)
    /\ is_Some (d' !! "_id").
Proof.
  unfold insertOne_doc, suppliedId.
  destruct (d !! "_id") as [i|] eqn:Hid.
  - destruct (decide (i = VNull)) as [->|Hi].
    + intros [= <- <-]. eexists. split; [done|]. split.
      * intros f Hf. by rewrite lookup_insert_ne.
      * rewrite lookup_insert_eq. by eexists.
    + assert (match i with VNull => None | _ => Some i end = Some i) as ->
        by (by destruct i).
      destruct (existsb _ c); [done|]. intros [= <- <-].
      exists d. split; [done|]. split; [done|]. by exists i.
  - intros [= <- <-]. eexists. split; [done|]. split.
    + intros f Hf. by rewrite lookup_insert_ne.
    + rewrite lookup_insert_eq. by eexists.
Qed.

(** The three ways [POST /bookings] ends. *)
Lemma post_bookings_cases (st : server) (req_body : doc) :
  post_bookings req_body st = (slotTaken, st)
  \/ post_bookings req_body st
     = (Response 500 (Error "Failed to book room"), st)
  \/ exists bs d used,
       bookingsCollection st = Some bs
       /\ post_bookings req_body st
          = (roomBooked, setColl Bookings (bs ++ [d]) used st)
       /\ (forall b, In b bs -> conflictsWith req_body b = false)
       /\ (forall f, f <> "_id" -> d !! f = req_body !! f)
       /\ is_Some (d !! "_id").
Proof.
  destruct (bookingsCollection st) as [bs|] eqn:Hbs.
  - rewrite (post_bookings_connected st bs) by done.
    destruct (existsb (conflictsWith req_body) bs) eqn:Hfree; [by left|].
    destruct (insertOne_doc (nextOid st) req_body bs) as [[c' used]|] eqn:Hins;
      [|by right; left].
    apply insertOne_doc_shape in Hins as [d [-> [Hd Hid]]].
    right; right. exists bs, d, used. repeat split; try done.
    by apply existsb_In_false.
  - right; left. unfold post_bookings, tryCatch, check_slot, findOne.
    unfold mbind, handler_bind. simpl. by rewrite Hbs.
Qed.

(** The two ways [POST /rooms] ends. *)
Lemma post_rooms_cases (st : server) (req_body : doc) :
  post_rooms req_body st = (Response 500 (Error "Failed to create room"), st)
  \/ exists rs d used,
       roomsCollection st = Some rs
       /\ post_rooms req_body st
          = (Response 201 (Text "Room Created"),
             setColl Rooms (rs ++ [d]) used st)
       /\ (forall f, f <> "_id" -> d !! f = req_body !! f)
       /\ is_Some (d !! "_id").
Proof.
  unfold post_rooms, tryCatch, insertOne. unfold mbind, handler_bind. simpl.
  destruct (roomsCollection st) as [rs|] eqn:Hrs; [|by left].
  destruct (insertOne_doc (nextOid st) req_body rs) as [[c' used]|] eqn:Hins;
    [|by left].
  apply insertOne_doc_shape in Hins as [d [-> [Hd Hid]]].
  right. exists rs, d, used. by repeat split.
Qed.

(** X2.  [POST /bookings] changes nothing unless it answers 201, never
    touches the rooms, and when it answers 201 it has appended exactly
    one document to the bookings: one that no stored booking conflicted
    with, that has an [_id], and whose other fields are those of the
    request body.  It answers 201, 400 or 500 and nothing else. *)
Theorem post_bookings_frame :
  forall (st : server) (req_body : doc),
    let r := fst (post_bookings req_body st) in
    let st' := snd (post_bookings req_body st) in
    roomsCollection st' = roomsCollection st
    /\ (status r = 201 \/ status r = 400 \/ status r = 500)
    /\ (status r <> 201 -> st' = st)
    /\ (status r = 201 ->
        exists bs d,
          bookingsCollection st = Some bs
          /\ bookingsCollection st' = Some (bs ++ [d])
          /\ (forall b, In b bs -> conflictsWith req_body b = false)
          /\ (forall f, f <> "_id" -> d !! f = req_body !! f)
          /\ is_Some (d !! "_id")).
Proof.
  intros st req_body. simpl.
  destruct (post_bookings_cases st req_body)
    as [->|[->|[bs [d [used [Hbs [-> [Hfree [Hd Hid]]]]]]]]]; simpl.
  - repeat split; auto; done.
  - repeat split; auto; done.
  - repeat split; auto; try done.
    intros _. exists bs, d. by repeat split.
Qed.

(** X3.  [POST /rooms] changes nothing unless it answers 201, never
    touches the bookings, and when it answers 201 it has appended exactly
    one document to the rooms, with an [_id] and with the other fields of
    the request body.  It answers 201 or 500 and nothing else. *)
Theorem post_rooms_frame :
  forall (st : server) (req_body : doc),
    let r := fst (post_rooms req_body st) in
    let st' := snd (post_rooms req_body st) in
    bookingsCollection st' = bookingsCollection st
    /\ (status r = 201 \/ status r = 500)
    /\ (status r <> 201 -> st' = st)
    /\ (status r = 201 ->
        exists rs d,
          roomsCollection st = Some rs
          /\ roomsCollection st' = Some (rs ++ [d])
          /\ (forall f, f <> "_id" -> d !! f = req_body !! f)
          /\ is_Some (d !! "_id")).
Proof.
  intros st req_body. simpl.
  destruct (post_rooms_cases st req_body)
    as [->|[rs [d [used [Hrs [-> [Hd Hid]]]]]]]; simpl.
  - repeat split; auto; done.
  - repeat split; auto; try done.
    intros _. exists rs, d. by repeat split.
Qed.

(** ** Before and after the connection *)

Lemma handle_unconnected (e : endpoint) (req_body : doc) (st : server) :
  roomsCollection st = None -> bookingsCollection st = None ->
  handle e req_body st = (unavailable e, st).
Proof.
  intros Hrs Hbs. destruct e; simpl;
    unfold post_rooms, post_bookings, get_rooms_bookings,
      get_customers_bookings, get_customers_name, get_root,
      tryCatch, check_slot, find, findOne, insertOne;
    unfold mbind, handler_bind; simpl; rewrite ?Hrs, ?Hbs; done.
Qed.

Lemma handleAll_unconnected (calls : list (endpoint * doc)) (st : server) :
  roomsCollection st = None -> bookingsCollection st = None ->
  handleAll calls st = (List.map (fun c => unavailable (fst c)) calls, st).
Proof.
  intros Hrs Hbs. induction calls as [|[e req_body] calls IH]; simpl; [done|].
  rewrite handle_unconnected by done. by rewrite IH.
Qed.

(** X4.  Requests that arrive before [connectToMongo] is through are
    answered 500 with the message of their route (the default route
    200) and leave nothing behind; if the connection fails, the failure
    is swallowed and the same goes for every later request. *)
Theorem lifetime_unconnected :
  forall (early late : list (endpoint * doc)) (db : option (list doc * list doc)),
    fst (fst (lifetime early db late))
    = List.map (fun c => unavailable (fst c)) early
    /\ snd (lifetime early db late)
       = snd (handleAll late (connectToMongo db startup))
    /\ (db = None ->
        snd (fst (lifetime early db late))
        = List.map (fun c => unavailable (fst c)) late
        /\ snd (lifetime early db late) = startup).
Proof.
  intros early late db. unfold lifetime.
  rewrite (handleAll_unconnected early startup) by done.
  destruct (handleAll late (connectToMongo db startup)) as [rs2 st2] eqn:Hlate.
  simpl. split; [done|]. split; [done|]. intros ->. simpl in Hlate.
  rewrite (handleAll_unconnected late startup) in Hlate by done.
  by injection Hlate as <- <-.
Qed.

Lemma admitted_get_rooms_bookings st :
  admitted (fst (get_rooms_bookings st)) = false.
Proof.
  unfold get_rooms_bookings, tryCatch. unfold mbind at 1, handler_bind at 1.
  destruct (find Rooms (FAnd []) st) as [[rooms|] st1]; [|done].
  unfold mbind at 1, handler_bind at 1.
  by destruct (forOf rooms _ [] st1) as [[result|] st2].
Qed.

Lemma admitted_get_customers_bookings st :
  admitted (fst (get_customers_bookings st)) = false.
Proof.
  unfold get_customers_bookings, tryCatch. unfold mbind at 1, handler_bind at 1.
  destruct (find Bookings (FAnd []) st) as [[bookings|] st1]; [|done].
  unfold mbind at 1, handler_bind at 1.
  by destruct (forOf bookings _ [] st1) as [[result|] st2].
Qed.

Lemma admitted_get_customers_name name st :
  admitted (fst (get_customers_name name st)) = false.
Proof.
  unfold get_customers_name, tryCatch. unfold mbind, handler_bind.
  by destruct (find Bookings _ st) as [[customerBookings|] st1].
Qed.

(** One request on a connected server: both collections stay defined and
    keep what they hold, and a document is appended exactly when the
    answer is 201. *)
Lemma handle_connected (e : endpoint) (req_body : doc) (st : server)
    (rs bs : list doc) :
  roomsCollection st = Some rs -> bookingsCollection st = Some bs ->
  exists rs' bs',
    roomsCollection (snd (handle e req_body st)) = Some (rs ++ rs')
    /\ bookingsCollection (snd (handle e req_body st)) = Some (bs ++ bs')
    /\ length rs' + length bs'
       = if admitted (fst (handle e req_body st)) then 1 else 0.
Proof.
  intros Hrs Hbs. destruct e; simpl.
  - destruct (post_rooms_cases st req_body)
      as [->|[rs0 [d [used [Hrs0 [-> _]]]]]]; simpl.
    + exists [], []. rewrite !app_nil_r. by repeat split.
    + rewrite Hrs in Hrs0. injection Hrs0 as <-.
      exists [d], []. rewrite app_nil_r. by repeat split.
  - destruct (post_bookings_cases st req_body)
      as [->|[->|[bs0 [d [used [Hbs0 [-> _]]]]]]]; simpl.
    + exists [], []. rewrite !app_nil_r. by repeat split.
    + exists [], []. rewrite !app_nil_r. by repeat split.
    + rewrite Hbs in Hbs0. injection Hbs0 as <-.
      exists [], [d]. rewrite app_nil_r. by repeat split.
  - rewrite admitted_get_rooms_bookings, get_rooms_bookings_reads.
    exists [], []. rewrite !app_nil_r. by repeat split.
  - rewrite admitted_get_customers_bookings, get_customers_bookings_reads.
    exists [], []. rewrite !app_nil_r. by repeat split.
  - rewrite admitted_get_customers_name, get_customers_name_reads.
    exists [], []. rewrite !app_nil_r. by repeat split.
  - exists [], []. rewrite !app_nil_r. by repeat split.
Qed.

(** X5.  Once connected the server stays connected, and its collections
    only grow: after any sequence of requests each collection is what it
    was followed by the documents added, as many in all as there were 201
    answers.  No request removes or rewrites a stored document. *)
Theorem handleAll_only_appends :
  forall (calls : list (endpoint * doc)) (st : server) (rs bs : list doc),
    roomsCollection st = Some rs ->
    bookingsCollection st = Some bs ->
    exists rs' bs',
      roomsCollection (snd (handleAll calls st)) = Some (rs ++ rs')
      /\ bookingsCollection (snd (handleAll calls st)) = Some (bs ++ bs')
      /\ length rs' + length bs'
         = length (List.filter admitted (fst (handleAll calls st))).
Proof.
  induction calls as [|[e req_body] calls IH]; intros st rs bs Hrs Hbs; simpl.
  - exists [], []. rewrite !app_nil_r. by repeat split.
  - destruct (handle_connected e req_body st rs bs Hrs Hbs)
      as [rs1 [bs1 [Hrs1 [Hbs1 Hn1]]]].
    destruct (handle e req_body st) as [r st1]. simpl in *.
    destruct (IH st1 _ _ Hrs1 Hbs1) as [rs2 [bs2 [Hrs2 [Hbs2 Hn2]]]].
    destruct (handleAll calls st1) as [resps st2]. simpl in *.
    exists (rs1 ++ rs2), (bs1 ++ bs2). split; [|split].
    + rewrite Hrs2. by rewrite List.app_assoc.
    + rewrite Hbs2. by rewrite List.app_assoc.
    + rewrite !length_app.
      destruct (admitted r); simpl; lia.
Qed.

Lemma handleAll_only_appends_witness :
  (roomsCollection Demo.connected = Some []
   /\ bookingsCollection Demo.connected = Some [])
  /\ exists rs' bs',
       roomsCollection
         (snd (handleAll [(PostRooms, Demo.hallA); (PostBookings, Demo.alice);
                          (PostBookings, Demo.bob); (GetRoomsBookings, ∅)]
                 Demo.connected)) = Some ([] ++ rs')
       /\ bookingsCollection
            (snd (handleAll [(PostRooms, Demo.hallA); (PostBookings, Demo.alice);
                             (PostBookings, Demo.bob); (GetRoomsBookings, ∅)]
                    Demo.connected)) = Some ([] ++ bs')
       /\ length rs' + length bs'
          = length (List.filter admitted
              (fst (handleAll [(PostRooms, Demo.hallA); (PostBookings, Demo.alice);
                               (PostBookings, Demo.bob); (GetRoomsBookings, ∅)]
                      Demo.connected))).
Proof.
  split; [split; reflexivity|].
  apply (handleAll_only_appends
           [(PostRooms, Demo.hallA); (PostBookings, Demo.alice);
            (PostBookings, Demo.bob); (GetRoomsBookings, ∅)]
           Demo.connected [] []); reflexivity.
Defined.

(** ** Booking twice, and what a booking makes visible *)

Lemma conflictsWith_self (b : doc) : conflictsWith b b = true.
Proof.
  unfold conflictsWith, sameSlot, overlapb, fieldOf.
  rewrite !bool_decide_eq_true_2 by done.
  rewrite !lte_refl. simpl. by rewrite orb_true_r.
Qed.

Lemma conflictsWith_same_fields (r d d' : doc) :
  (forall f, f <> "_id" -> d' !! f = d !! f) ->
  conflictsWith r d' = conflictsWith r d.
Proof.
  intros H. unfold conflictsWith, sameSlot, fieldOf. by rewrite !H.
Qed.

(** X6.  A booking request that was answered 201 or 400 is answered 400
    when it is sent again: the booking just stored, or the one that was
    in the way, conflicts with it.  The second call changes nothing. *)
Theorem post_bookings_repeat :
  forall (st : server) (req_body : doc),
    status (fst (post_bookings req_body st)) <> 500 ->
    post_bookings req_body (snd (post_bookings req_body st))
    = (slotTaken, snd (post_bookings req_body st)).
Proof.
  intros st req_body Hok.
  destruct (post_bookings_cases st req_body)
    as [Hp|[Hp|[bs [d [used [Hbs [Hp [Hfree [Hd Hid]]]]]]]]].
  - rewrite Hp. simpl. exact Hp.
  - rewrite Hp in Hok. simpl in Hok. done.
  - rewrite Hp. simpl.
    apply (post_bookings_taken _ (bs ++ [d])); [by destruct used|].
    apply existsb_app_last.
    rewrite (conflictsWith_same_fields req_body req_body d) by done.
    apply conflictsWith_self.
Qed.

Lemma post_bookings_repeat_witness :
  status (fst (post_bookings Demo.night Demo.connected)) <> 500
  /\ post_bookings Demo.night (snd (post_bookings Demo.night Demo.connected))
     = (slotTaken, snd (post_bookings Demo.night Demo.connected)).
Proof.
  assert (status (fst (post_bookings Demo.night Demo.connected)) <> 500) as H
    by (vm_compute; discriminate).
  split; [exact H|].
  exact (post_bookings_repeat Demo.connected Demo.night H).
Defined.

Lemma post_bookings_booked st bs req_body :
  bookingsCollection st = Some bs ->
  req_body !! "_id" = None ->
  fst (post_bookings req_body st) = roomBooked ->
  snd (post_bookings req_body st)
  = Server (roomsCollection st)
           (Some (bs ++ [<["_id" := VOid (nextOid st)]> req_body]))
           (N.succ (nextOid st)).
Proof.
  intros Hbs Hid Hok.
  destruct (existsb (conflictsWith req_body) bs) eqn:Hfree.
  - rewrite (post_bookings_taken st bs) in Hok by done. discriminate Hok.
  - by rewrite (post_bookings_free st bs).
Qed.

(** X7.  On a connected server a booking that was admitted shows as the
    last row of the history of its customer, and the history of every
    other customer is what it was. *)
Theorem booked_shows_in_history :
  forall (st : server) (bs : list doc) (req_body : doc) (name : string),
    bookingsCollection st = Some bs ->
    req_body !! "_id" = None ->
    req_body !! "customerName" = Some (VStr name) ->
    fst (post_bookings req_body st) = roomBooked ->
    let st' := snd (post_bookings req_body st) in
    (exists rows,
       fst (get_customers_name name st) = Response 200 (Rows rows)
       /\ fst (get_customers_name name st')
          = Response 200
              (Rows (rows ++ [historyRow (<["_id" := VOid (nextOid st)]> req_body)])))
    /\ forall other, other <> name ->
         fst (get_customers_name other st') = fst (get_customers_name other st).
Proof.
  intros st bs req_body name Hbs Hid Hname Hok. simpl.
  rewrite (post_bookings_booked st bs) by done.
  split.
  - eexists. split.
    + rewrite (get_customers_name_connected st bs) by done. reflexivity.
    + rewrite (get_customers_name_connected _ (bs ++ [_])) by done. simpl.
      rewrite List.filter_app, List.map_app. simpl.
      rewrite lookup_insert_ne by done.
      by rewrite bool_decide_eq_true_2.
  - intros other Hother.
    rewrite (get_customers_name_connected st bs) by done.
    rewrite (get_customers_name_connected _ (bs ++ [_])) by done. simpl.
    rewrite List.filter_app, List.map_app. simpl.
    rewrite lookup_insert_ne by done.
    rewrite bool_decide_eq_false_2 by congruence.
    simpl. by rewrite app_nil_r.
Qed.

Lemma booked_shows_in_history_witness :
  (bookingsCollection (Server (Some []) (Some [Demo.stored 0 Demo.alice]) 1)
   = Some [Demo.stored 0 Demo.alice]
   /\ Demo.bobLater !! "_id" = None
   /\ Demo.bobLater !! "customerName" = Some (VStr "Bob")
   /\ fst (post_bookings Demo.bobLater
             (Server (Some []) (Some [Demo.stored 0 Demo.alice]) 1))
      = roomBooked)
  /\ forall other, other <> "Bob" ->
       fst (get_customers_name other
              (snd (post_bookings Demo.bobLater
                      (Server (Some []) (Some [Demo.stored 0 Demo.alice]) 1))))
       = fst (get_customers_name other
                (Server (Some []) (Some [Demo.stored 0 Demo.alice]) 1)).
Proof.
  split; [repeat split; vm_compute; reflexivity|].
  apply (booked_shows_in_history
           (Server (Some []) (Some [Demo.stored 0 Demo.alice]) 1)
           [Demo.stored 0 Demo.alice] Demo.bobLater "Bob");
    vm_compute; reflexivity.
Defined.

Lemma sameRoomId_stored_r (room b : doc) (v : value) :
  sameRoomId room (<["_id" := v]> b) = sameRoomId room b.
Proof. unfold sameRoomId. by rewrite fieldOf_stored. Qed.

Lemma sameRoomId_stored_l (room b : doc) (v : value) :
  sameRoomId (<["_id" := v]> room) b = sameRoomId room b.
Proof. unfold sameRoomId. by rewrite fieldOf_stored. Qed.

Lemma sameRoomId_same_fields (room d d' : doc) :
  (forall f, f <> "_id" -> d' !! f = d !! f) ->
  sameRoomId room d' = sameRoomId room d.
Proof. intros H. unfold sameRoomId, fieldOf. by rewrite H. Qed.

(** X8.  On a connected server an admitted booking, with or without an
    [_id] of its own, adds to the customer listing, at its end, one row
    for each stored room that has the roomId of the booking, in the order
    of the rooms, and changes no other row; with no such room the listing
    is what it was. *)
Theorem booked_shows_in_listing :
  forall (st : server) (rs bs : list doc) (req_body : doc),
    roomsCollection st = Some rs ->
    bookingsCollection st = Some bs ->
    fst (post_bookings req_body st) = roomBooked ->
    exists rows,
      fst (get_customers_bookings st) = Response 200 (Rows rows)
      /\ fst (get_customers_bookings (snd (post_bookings req_body st)))
         = Response 200
             (Rows (rows ++
                    List.map (customerBookingRow req_body)
                      (List.filter (fun room => sameRoomId room req_body) rs))).
Proof.
  intros st rs bs req_body Hrs Hbs Hok.
  destruct (post_bookings_cases st req_body)
    as [Hp|[Hp|[bs0 [d [used [Hbs0 [Hp [_ [Hd _]]]]]]]]];
    rewrite Hp in Hok |- *; [discriminate Hok..|].
  rewrite Hbs in Hbs0. injection Hbs0 as <-. simpl.
  eexists. split.
  - rewrite (get_customers_bookings_connected st rs bs) by done. reflexivity.
  - rewrite (get_customers_bookings_connected _ rs (bs ++ [d]))
      by (by destruct used).
    simpl. rewrite flat_map_app. simpl. rewrite app_nil_r.
    do 3 f_equal.
    rewrite (List.filter_ext _ (fun room => sameRoomId room req_body)).
    + apply List.map_ext. intros room. unfold customerBookingRow.
      by rewrite !Hd.
    + intros room. rewrite sameRoomId_sym. by apply sameRoomId_same_fields.
Qed.

Lemma booked_shows_in_listing_witness :
  (roomsCollection (Server (Some [Demo.hallA; Demo.hallA]) (Some []) 0)
   = Some [Demo.hallA; Demo.hallA]
   /\ bookingsCollection (Server (Some [Demo.hallA; Demo.hallA]) (Some []) 0)
      = Some []
   /\ fst (post_bookings (<["_id" := VNum 7]> Demo.alice)
             (Server (Some [Demo.hallA; Demo.hallA]) (Some []) 0))
      = roomBooked)
  /\ exists rows,
       fst (get_customers_bookings
              (Server (Some [Demo.hallA; Demo.hallA]) (Some []) 0))
       = Response 200 (Rows rows)
       /\ fst (get_customers_bookings
                 (snd (post_bookings (<["_id" := VNum 7]> Demo.alice)
                         (Server (Some [Demo.hallA; Demo.hallA]) (Some []) 0))))
          = Response 200
              (Rows (rows ++
                     List.map (customerBookingRow (<["_id" := VNum 7]> Demo.alice))
                       (List.filter
                          (fun room =>
                             sameRoomId room (<["_id" := VNum 7]> Demo.alice))
                          [Demo.hallA; Demo.hallA]))).
Proof.
  split; [split; [reflexivity|split; [reflexivity|vm_compute; reflexivity]]|].
  apply (booked_shows_in_listing
           (Server (Some [Demo.hallA; Demo.hallA]) (Some []) 0)
           [Demo.hallA; Demo.hallA] [] (<["_id" := VNum 7]> Demo.alice));
    [reflexivity|reflexivity|vm_compute; reflexivity].
Defined.

Lemma post_rooms_created st rs req_body :
  roomsCollection st = Some rs ->
  req_body !! "_id" = None ->
  post_rooms req_body st
  = (Response 201 (Text "Room Created"),
     Server (Some (rs ++ [<["_id" := VOid (nextOid st)]> req_body]))
            (bookingsCollection st) (N.succ (nextOid st))).
Proof.
  intros Hrs Hid. unfold post_rooms, tryCatch, insertOne.
  unfold mbind, handler_bind, mret, handler_ret. simpl. rewrite Hrs.
  by rewrite insertOne_doc_fresh.
Qed.

(** X9.  On a connected server a room that was created adds to the room
    listing, at its end, one row for each stored booking that has its
    roomId, and changes no other row: a second room with a roomId already
    in use shows every booking of that roomId once more. *)
Theorem created_shows_in_listing :
  forall (st : server) (rs bs : list doc) (req_body : doc),
    roomsCollection st = Some rs ->
    bookingsCollection st = Some bs ->
    req_body !! "_id" = None ->
    exists rows,
      fst (get_rooms_bookings st) = Response 200 (Rows rows)
      /\ fst (get_rooms_bookings (snd (post_rooms req_body st)))
         = Response 200
             (Rows (rows ++
                    List.map (roomBookingRow req_body)
                      (List.filter (sameRoomId req_body) bs))).
Proof.
  intros st rs bs req_body Hrs Hbs Hid.
  rewrite (post_rooms_created st rs) by done. simpl.
  eexists. split.
  - rewrite (get_rooms_bookings_connected st rs bs) by done. reflexivity.
  - rewrite (get_rooms_bookings_connected _ (rs ++ [_]) bs) by done.
    simpl. rewrite flat_map_app. simpl. rewrite app_nil_r.
    do 3 f_equal.
    rewrite (List.filter_ext _ (sameRoomId req_body)).
    + apply List.map_ext. intros b. unfold roomBookingRow.
      by rewrite !lookup_insert_ne.
    + intros b. apply sameRoomId_stored_l.
Qed.

Lemma created_shows_in_listing_witness :
  (roomsCollection (Server (Some [Demo.hallA]) (Some [Demo.alice; Demo.carol]) 0)
   = Some [Demo.hallA]
   /\ bookingsCollection
        (Server (Some [Demo.hallA]) (Some [Demo.alice; Demo.carol]) 0)
      = Some [Demo.alice; Demo.carol]
   /\ Demo.room "R1" "Hall B" !! "_id" = None)
  /\ exists rows,
       fst (get_rooms_bookings
              (Server (Some [Demo.hallA]) (Some [Demo.alice; Demo.carol]) 0))
       = Response 200 (Rows rows)
       /\ fst (get_rooms_bookings
                 (snd (post_rooms (Demo.room "R1" "Hall B")
                         (Server (Some [Demo.hallA])
                                 (Some [Demo.alice; Demo.carol]) 0))))
          = Response 200
              (Rows (rows ++
                     List.map (roomBookingRow (Demo.room "R1" "Hall B"))
                       (List.filter (sameRoomId (Demo.room "R1" "Hall B"))
                          [Demo.alice; Demo.carol]))).
Proof.
  split; [repeat split; vm_compute; reflexivity|].
  apply (created_shows_in_listing
           (Server (Some [Demo.hallA]) (Some [Demo.alice; Demo.carol]) 0)
           [Demo.hallA] [Demo.alice; Demo.carol] (Demo.room "R1" "Hall B"));
    vm_compute; reflexivity.
Defined.

(** ** The two listings side by side *)

Lemma length_flat_map_map {A B C} (f : A -> B -> C) (g : A -> list B)
    (xs : list A) :
  length (flat_map (fun x => List.map (f x) (g x)) xs)
  = length (flat_map g xs).
Proof.
  induction xs as [|x xs IH]; simpl; [done|].
  by rewrite !length_app, List.length_map, IH.
Qed.

Lemma join_count_cons {A B} (P : A -> B -> bool) (x : A) (xs : list A)
    (ys : list B) :
  length (flat_map (fun y => List.filter (fun x' => P x' y) (x :: xs)) ys)
  = length (List.filter (P x) ys)
    + length (flat_map (fun y => List.filter (fun x' => P x' y) xs) ys).
Proof.
  induction ys as [|y ys IH]; [done|].
  simpl in *. destruct (P x y); simpl; rewrite !length_app, IH; lia.
Qed.

Lemma join_count {A B} (P : A -> B -> bool) (xs : list A) (ys : list B) :
  length (flat_map (fun x => List.filter (P x) ys) xs)
  = length (flat_map (fun y => List.filter (fun x => P x y) xs) ys).
Proof.
  induction xs as [|x xs IH].
  - simpl. induction ys as [|y ys IHy]; simpl; done.
  - rewrite join_count_cons. simpl. by rewrite length_app, IH.
Qed.

(** X10.  On a connected server the room listing and the customer
    listing have the same number of rows: both have one row for each
    pair of a room and a booking with the same roomId. *)
Theorem listings_same_length :
  forall (st : server) (rs bs : list doc),
    roomsCollection st = Some rs ->
    bookingsCollection st = Some bs ->
    exists rows1 rows2,
      fst (get_rooms_bookings st) = Response 200 (Rows rows1)
      /\ fst (get_customers_bookings st) = Response 200 (Rows rows2)
      /\ length rows1 = length rows2.
Proof.
  intros st rs bs Hrs Hbs.
  rewrite (get_rooms_bookings_connected st rs bs) by done.
  rewrite (get_customers_bookings_connected st rs bs) by done.
  do 2 eexists. split; [reflexivity|]. split; [reflexivity|].
  rewrite (length_flat_map_map roomBookingRow
             (fun room => List.filter (sameRoomId room) bs)).
  rewrite (length_flat_map_map customerBookingRow
             (fun booking => List.filter (fun room => sameRoomId booking room) rs)).
  rewrite (join_count sameRoomId rs bs).
  f_equal. apply flat_map_ext. intros booking.
  apply List.filter_ext. intros room. apply sameRoomId_sym.
Qed.

Lemma listings_same_length_witness :
  (roomsCollection
     (Server (Some [Demo.hallA; Demo.hallA]) (Some [Demo.alice; Demo.carol]) 0)
   = Some [Demo.hallA; Demo.hallA]
   /\ bookingsCollection
        (Server (Some [Demo.hallA; Demo.hallA]) (Some [Demo.alice; Demo.carol]) 0)
      = Some [Demo.alice; Demo.carol])
  /\ exists rows1 rows2,
       fst (get_rooms_bookings
              (Server (Some [Demo.hallA; Demo.hallA])
                      (Some [Demo.alice; Demo.carol]) 0))
       = Response 200 (Rows rows1)
       /\ fst (get_customers_bookings
                 (Server (Some [Demo.hallA; Demo.hallA])
                         (Some [Demo.alice; Demo.carol]) 0))
          = Response 200 (Rows rows2)
       /\ length rows1 = length rows2.
Proof.
  split; [split; reflexivity|].
  apply (listings_same_length
           (Server (Some [Demo.hallA; Demo.hallA])
                   (Some [Demo.alice; Demo.carol]) 0)
           [Demo.hallA; Demo.hallA] [Demo.alice; Demo.carol]); reflexivity.
Defined.

(** ** The conflict query on particular requests *)

(** X11.  When the stored booking and the request both have their start
    no later than their end, the conflict query is the usual test of two
    intervals: it matches exactly the bookings of the room and date that
    start no later than the request ends and end no earlier than the
    request starts. *)
Theorem conflict_query_wellFormed :
  forall (roomId date start end_ : option value) (b : doc),
    wellFormed b ->
    bson start ⪯ bson end_ ->
    (matches (conflictQuery roomId date start end_) b = true <->
       (fieldOf b "roomId" = bson roomId /\ fieldOf b "date" = bson date)
       /\ fieldOf b "start" ⪯ bson end_
       /\ bson start ⪯ fieldOf b "end").
Proof.
  intros roomId date start end_ b Hb Hreq.
  rewrite matches_conflictQuery, andb_true_iff, sameSlot_true.
  by rewrite overlapb_wellFormed.
Qed.

Lemma conflict_query_wellFormed_witness :
  (wellFormed Demo.alice
   /\ bson (Demo.bobLater !! "start") ⪯ bson (Demo.bobLater !! "end"))
  /\ (matches (conflictQueryOf Demo.bobLater) Demo.alice = true <->
       (fieldOf Demo.alice "roomId" = bson (Demo.bobLater !! "roomId")
        /\ fieldOf Demo.alice "date" = bson (Demo.bobLater !! "date"))
       /\ fieldOf Demo.alice "start" ⪯ bson (Demo.bobLater !! "end")
       /\ bson (Demo.bobLater !! "start") ⪯ fieldOf Demo.alice "end").
Proof.
  split; [split; vm_compute; reflexivity|].
  apply (conflict_query_wellFormed
           (Demo.bobLater !! "roomId") (Demo.bobLater !! "date")
           (Demo.bobLater !! "start") (Demo.bobLater !! "end") Demo.alice);
    vm_compute; reflexivity.
Defined.

Lemma lte_null_r (x : value) : x ⪯ VNull <-> x = VNull.
Proof. destruct x; simpl; split; congruence. Qed.

Lemma lte_null_l (x : value) : VNull ⪯ x <-> x = VNull.
Proof. destruct x; simpl; split; congruence. Qed.

(** X12.  A request body without [start] and [end] is not refused for
    want of them: its conflict query matches exactly the stored bookings
    of its room and date that have neither a start nor an end (or have
    them [null]), so it is never refused on account of a booking that has
    a time. *)
Theorem conflict_query_no_times :
  forall (req_body b : doc),
    req_body !! "start" = None ->
    req_body !! "end" = None ->
    (matches (conflictQueryOf req_body) b = true <->
       sameSlot (req_body !! "roomId") (req_body !! "date") b = true
       /\ fieldOf b "start" = VNull /\ fieldOf b "end" = VNull).
Proof.
  intros req_body b Hs He. rewrite matches_conflictQueryOf.
  unfold conflictsWith. rewrite Hs, He. simpl.
  rewrite andb_true_iff, overlapb_true, !lte_null_r, !lte_null_l. tauto.
Qed.

Lemma conflict_query_no_times_witness :
  ((∅ : doc) !! "start" = None /\ (∅ : doc) !! "end" = None)
  /\ (matches (conflictQueryOf ∅) Demo.alice = true <->
       sameSlot ((∅ : doc) !! "roomId") ((∅ : doc) !! "date") Demo.alice = true
       /\ fieldOf Demo.alice "start" = VNull
       /\ fieldOf Demo.alice "end" = VNull).
Proof.
  split; [split; reflexivity|].
  apply (conflict_query_no_times ∅ Demo.alice); reflexivity.
Defined.

(** X13.  A stored booking whose start is of another type than the
    start of the request, and whose end is of another type than its end
    (text against numbers, say), never matches the conflict query: the
    store compares values of one type only. *)
Theorem conflict_query_mixed_types :
  forall (roomId date start end_ : option value) (b : doc),
    Cmp.sameType (fieldOf b "start") (bson start) = false ->
    Cmp.sameType (fieldOf b "end") (bson end_) = false ->
    matches (conflictQuery roomId date start end_) b = false.
Proof.
  intros roomId date start end_ b Hs He.
  rewrite matches_conflictQuery. unfold overlapb.
  assert (Cmp.lte (fieldOf b "start") (bson start) = false) as ->.
  { apply not_true_iff_false. intros H. apply lte_sameType in H. congruence. }
  assert (Cmp.lte (bson end_) (fieldOf b "end") = false) as ->.
  { apply not_true_iff_false. intros H. apply lte_sameType in H.
    rewrite sameType_sym in H. congruence. }
  assert (Cmp.lte (bson start) (fieldOf b "start") = false) as ->.
  { apply not_true_iff_false. intros H. apply lte_sameType in H.
    rewrite sameType_sym in H. congruence. }
  simpl. rewrite andb_false_r. simpl. by rewrite andb_false_r.
Qed.

Lemma conflict_query_mixed_types_witness :
  (Cmp.sameType (fieldOf Demo.alice "start") (bson (Some (VNum 900))) = false
   /\ Cmp.sameType (fieldOf Demo.alice "end") (bson (Some (VNum 1000))) = false)
  /\ matches (conflictQuery (Demo.alice !! "roomId") (Demo.alice !! "date")
                (Some (VNum 900)) (Some (VNum 1000))) Demo.alice = false.
Proof.
  split; [split; vm_compute; reflexivity|].
  apply (conflict_query_mixed_types (Demo.alice !! "roomId")
           (Demo.alice !! "date") (Some (VNum 900)) (Some (VNum 1000))
           Demo.alice); vm_compute; reflexivity.
Defined.

(** ** Two requests in flight *)





(** ** A request that brings its own [_id] *)



(** ** Routing *)

Lemma decodeFrom_plain (s : string) :
  plain s = true -> decodeFrom s None = Some s.
Proof.
  induction s as [|c s IH]; simpl; [done|].
  rewrite !andb_true_iff, negb_true_iff. intros [[Hc Hn] Hs].
  rewrite Hc, Hn. by rewrite IH.
Qed.

Lemma dispatch_customers (c x : string) :
  lower c = "customers" ->
  route GET [c; x] =
    if bool_decide (lower x = "bookings") then Handled GetCustomersBookings
    else if bool_decide (x = "") then NotFound
    else match decodeURIComponent x with
         | Some name => Handled (GetCustomersName name)
         | None => BadParam
         end.
Proof.
  intros Hc. unfold route, routes. simpl. rewrite Hc. simpl.
  destruct (bool_decide (lower x = "bookings")); [done|].
  destruct (bool_decide (x = "")); [done|].
  by destruct (decodeURIComponent x).
Qed.

(** X16.  Under [/customers] the listing route is registered before the
    [:name] route and takes its requests: [GET /customers/<x>] is
    answered by the listing when [x], as sent, is [bookings] in any mix
    of upper and lower case.  Otherwise, for [x] not empty, it reaches
    the history handler with the percent-decoded [x] as the name, or is
    answered 400 by the router when [x] does not decode; an [x] of ASCII
    characters without a percent sign is handed over as it is. *)
Theorem customers_route_shadowed :
  forall (c x : string),
    lower c = "customers" ->
    (lower x = "bookings" -> route GET [c; x] = Handled GetCustomersBookings)
    /\ (forall name,
          route GET [c; x] = Handled (GetCustomersName name)
          <-> x <> "" /\ lower x <> "bookings"
              /\ decodeURIComponent x = Some name)
    /\ (route GET [c; x] = BadParam
        <-> x <> "" /\ lower x <> "bookings" /\ decodeURIComponent x = None)
    /\ (plain x = true -> decodeURIComponent x = Some x).
Proof.
  intros c x Hc. rewrite (dispatch_customers c x Hc).
  split; [|split; [|split]].
  - intros Hb. by rewrite bool_decide_eq_true_2.
  - intros name.
    destruct (bool_decide_reflect (lower x = "bookings")) as [Hb|Hb].
    { split; [done|]. intros [_ [H _]]. done. }
    destruct (bool_decide_reflect (x = "")) as [He|He].
    { split; [done|]. intros [H _]. done. }
    destruct (decodeURIComponent x) as [v|].
    + split; [intros [= ->]; done|]. intros [_ [_ [= ->]]]. done.
    + split; [done|]. intros [_ [_ H]]. done.
  - destruct (bool_decide_reflect (lower x = "bookings")) as [Hb|Hb].
    { split; [done|]. intros [_ [H _]]. done. }
    destruct (bool_decide_reflect (x = "")) as [He|He].
    { split; [done|]. intros [H _]. done. }
    destruct (decodeURIComponent x) as [v|].
    + split; [done|]. intros [_ [_ H]]. done.
    + done.
  - apply decodeFrom_plain.
Qed.

Lemma customers_route_shadowed_witness :
  lower "Customers" = "customers"
  /\ route GET ["Customers"; "Bookings"] = Handled GetCustomersBookings
  /\ route GET ["Customers"; "%62ookings"]
     = Handled (GetCustomersName "bookings")
  /\ route GET ["Customers"; "%41lice"] = Handled (GetCustomersName "Alice")
  /\ route GET ["Customers"; "%zz"] = BadParam.
Proof.
  split; [reflexivity|]. split; [|split; [|split]].
  - apply (proj1 (customers_route_shadowed "Customers" "Bookings" eq_refl)).
    reflexivity.
  - apply (proj1 (proj2 (customers_route_shadowed "Customers" "%62ookings"
                           eq_refl)) "bookings").
    split; [discriminate|]. split; [vm_compute; discriminate|reflexivity].
  - apply (proj1 (proj2 (customers_route_shadowed "Customers" "%41lice"
                           eq_refl)) "Alice").
    split; [discriminate|]. split; [vm_compute; discriminate|reflexivity].
  - apply (proj1 (proj2 (proj2 (customers_route_shadowed "Customers" "%zz"
                                  eq_refl)))).
    split; [discriminate|]. split; [vm_compute; discriminate|reflexivity].
Defined.
